(** * Concurrent generation and muxing orchestrator

    A shallow embedding of [modal-video/test_video_with_audio.py]: the two
    generation tasks ([generate_video_with_modal], [generate_tts_with_gradient]),
    the FFmpeg step ([combine_video_audio]) and the two-way join
    ([run_parallel_generation]).

    The outside world (HTTP provider, Modal, the file system, external
    processes, the wall clock) is an oracle record [World]; every Python
    function is a computation in a small state-and-exception monad whose
    state is the log of the effects it performed.

    A second part embeds the entry point with [run_sequential_test], and the
    web endpoints and keyword calls of the Modal services ([video_gen.py],
    [video_gen_ltx.py], [video_gen_v2.py], [ltx2_gen.py]). *)

From Stdlib Require Import ZArith List String Bool Lia.
From Equations Require Import Equations.
Import ListNotations.

Open Scope string_scope.
Open Scope list_scope.
Open Scope Z_scope.

Set Implicit Arguments.
Set Warnings "-register-all".

(** ** Python values *)

(** Parsed JSON, as [response.json()] returns it.  An object is kept as an
    association list; [dict_lookup] takes the first binding of a key. *)
Inductive Json : Type :=
| JNull
| JBool (b : bool)
| JNum (n : Z)
| JStr (s : string)
| JArr (items : list Json)
| JObj (fields : list (string * Json)).

(** Clock differences ([time.time() - start_time]); the unit is irrelevant
    to the control flow. *)
Definition Time := Z.

(** Python truthiness of a JSON value. *)
Definition truthy (j : Json) : bool :=
  match j with
  | JNull => false
  | JBool b => b
  | JNum n => negb (n =? 0)
  | JStr s => negb (s =? EmptyString)%string
  | JArr l => match l with [] => false | _ => true end
  | JObj l => match l with [] => false | _ => true end
  end.

(** Truthiness of an optional string ([None] and the empty string are falsy):
    used for [if not DO_GRADIENT_API_KEY], [if not video_path]. *)
Definition str_truthy (o : option string) : bool :=
  match o with
  | None => false
  | Some s => negb (s =? EmptyString)%string
  end.

Fixpoint dict_lookup (key : string) (fields : list (string * Json)) : option Json :=
  match fields with
  | [] => None
  | (k, v) :: rest => if (k =? key)%string then Some v else dict_lookup key rest
  end.

(** [j == 'literal'] for a JSON value [j]. *)
Definition py_eq_str (j : Json) (lit : string) : bool :=
  match j with
  | JStr s => (s =? lit)%string
  | _ => false
  end.

(** ** Exceptions *)

(** Every exception the script can meet is a subclass of [Exception].
    [Exception_] and [ValueError] are the ones the script raises itself (the
    f-string is kept as a format with its arguments); [External] stands for
    what the libraries raise ([requests], [json], [subprocess], [modal],
    [open]). *)
Inductive exn : Type :=
| Exception_ (fmt : string) (args : list Json)
| ValueError (fmt : string)
| AttributeError
| TypeError
| IndexError
| External (cls : string) (detail : string).

Inductive result (A : Type) : Type :=
| Return (a : A)
| Raise (e : exn).
Arguments Return {A} a.
Arguments Raise {A} e.

(** ** Effects *)

Inductive Method := GET | POST.

(** The two futures of the executor, told apart by identity. *)
Inductive Future := video_future | audio_future.

(** The URLs the audio task builds.  The endpoint prefix
    [DO_GRADIENT_ENDPOINT] is fixed for a run and left implicit; the job
    handle is kept as the JSON value that the f-string interpolates. *)
Inductive Url : Type :=
| U_invoke                       (* {ENDPOINT}/v1/async-invoke *)
| U_status (request_id : Json)   (* {ENDPOINT}/v1/async-invoke/{request_id}/status *)
| U_result (request_id : Json)   (* {ENDPOINT}/v1/async-invoke/{request_id} *)
| U_audio (audio_url : string).  (* the audio_url of the result *)

Inductive Arg : Type :=
| AStr (s : string)
| AInt (n : Z)
| ATime (t : Time)
| AJson (j : Json)
| AExn (e : exn).

Inductive Event : Type :=
| Print (fmt : string) (args : list Arg)
| Http (m : Method) (url : Url) (timeout : Z)
| Sleep (secs : Z)
| WriteFile (path : string)
| ModalRemote (num_frames width height num_inference_steps : Z)
| Submit (f : Future)                 (* executor.submit *)
| Exec (argv : list string).

Record Response : Type := {
  ok : bool;                 (* response.ok, the library's verdict on the status *)
  status_code : Z;
  text : string;
  json : option Json;        (* response.json(); None when it raises *)
  content : string           (* response.content *)
}.

Inductive HttpReply : Type :=
| Responds (r : Response)
| Fails (detail : string).    (* requests raises: connection error, timeout *)

Inductive ModalReply : Type :=
| ModalBytes (video : string)
| ModalImportError                 (* import modal / from video_gen import ... raises *)
| ModalRaises (detail : string).   (* generate_video.remote raises *)

Record Completed : Type := {
  returncode : Z;
  stdout : string;
  stderr : string
}.

(** What the environment answers.  [http] may depend on how many requests
    the task has issued before, so a job can be pending first and complete
    later.  External programs are assumed to be installed: starting one
    always yields a completed process. *)
Record World : Type := {
  DO_GRADIENT_API_KEY : option string;
  http : nat -> Method -> Url -> HttpReply;
  modal_remote : ModalReply;
  fs_write_ok : string -> bool;
  proc : list string -> Completed;
  py_float : string -> option Time;   (* float(out.decode().strip()) *)
  video_elapsed : Time;
  audio_elapsed : Time;
  combine_elapsed : Time;
  overall_time : Time;
  video_first : bool                  (* which future as_completed yields first *)
}.

Record TaskState : Type := {
  log : list Event;     (* the effects performed so far, newest first *)
  nreq : nat            (* HTTP requests issued so far *)
}.

Definition init : TaskState := {| log := []; nreq := 0 |}.

(** The effects in the order in which they happened. *)
Definition history (s : TaskState) : list Event := rev (log s).

Definition M (A : Type) : Type := TaskState -> result A * TaskState.

Definition ret {A} (a : A) : M A := fun s => (Return a, s).

Definition raise {A} (e : exn) : M A := fun s => (Raise e, s).

Definition bind {A B} (c : M A) (k : A -> M B) : M B :=
  fun s =>
    match c s with
    | (Return a, s') => k a s'
    | (Raise e, s') => (Raise e, s')
    end.

(** [try: c except Exception as e: h e] *)
Definition try_except {A} (c : M A) (h : exn -> M A) : M A :=
  fun s =>
    match c s with
    | (Return a, s') => (Return a, s')
    | (Raise e, s') => h e s'
    end.

Notation "x <- c ;; k" := (bind c (fun x => k))
  (at level 61, c at next level, right associativity).
Notation "c ;;; k" := (bind c (fun _ => k))
  (at level 61, right associativity).

Definition emit (e : Event) : M unit :=
  fun s => (Return tt, {| log := e :: log s; nreq := nreq s |}).

Definition print (fmt : string) (args : list Arg) : M unit :=
  emit (Print fmt args).

Definition sleep (secs : Z) : M unit := emit (Sleep secs).

Definition request (w : World) (m : Method) (url : Url) (timeout : Z) : M Response :=
  fun s =>
    let s' := {| log := Http m url timeout :: log s; nreq := S (nreq s) |} in
    match http w (nreq s) m url with
    | Responds r => (Return r, s')
    | Fails d => (Raise (External "requests.RequestException" d), s')
    end.

Definition response_json (r : Response) : M Json :=
  match json r with
  | Some j => ret j
  | None => raise (External "json.JSONDecodeError" EmptyString)
  end.

(** [d.get(key)]: [None] when the key is missing, [AttributeError] when [d]
    is not a dict. *)
Definition dict_get (key : string) (d : Json) : M Json :=
  match d with
  | JObj fields =>
      match dict_lookup key fields with
      | Some v => ret v
      | None => ret JNull
      end
  | _ => raise AttributeError
  end.

(** [d.get(key, default)] *)
Definition dict_get_default (key : string) (default : Json) (d : Json) : M Json :=
  match d with
  | JObj fields =>
      match dict_lookup key fields with
      | Some v => ret v
      | None => ret default
      end
  | _ => raise AttributeError
  end.

(** [with open(path, 'wb') as f: f.write(data)] *)
Definition write_file (w : World) (path : string) : M unit :=
  emit (WriteFile path) ;;;
  if fs_write_ok w path then ret tt
  else raise (External "OSError" path).

(** ** generate_tts_with_gradient *)

Definition max_wait : Z := 120.
Definition poll_interval : Z := 2.

Definition audio_path_const : string := "/root/MOLTSTUDIOS/modal-video/test_audio.mp3".

Definition timed_out : exn := Exception_ "TTS generation timed out" [].

(** The body of [if status.get('status') == 'COMPLETE':] (lines 126-156). *)
Definition fetch_result (w : World) (request_id : Json) : M (string * Time) :=
  result_response <- request w GET (U_result request_id) 30 ;;
  if ok result_response then
    result <- response_json result_response ;;
    first <- dict_get "audio_url" result ;;
    audio_url <-
      (if truthy first then ret first
       else
         output <- dict_get_default "output" (JObj []) result ;;
         dict_get "audio_url" output) ;;
    if truthy audio_url then
      match audio_url with
      | JStr url =>
          print "   Downloading audio from: {}..." [AStr url] ;;;
          audio_download <- request w GET (U_audio url) 60 ;;
          write_file w audio_path_const ;;;
          print "TTS generated in {:.1f}s" [ATime (audio_elapsed w)] ;;;
          print "   Saved to: {}" [AStr audio_path_const] ;;;
          ret (audio_path_const, audio_elapsed w)
      | JArr _ =>
          (* a list can be sliced, but is not a URL: requests rejects it
             before any traffic *)
          print "   Downloading audio from: {}..." [AJson audio_url] ;;;
          raise (External "requests.RequestException" "MissingSchema")
      | _ =>
          (* audio_url[:80] on a number, a bool or a dict *)
          raise TypeError
      end
    else
      print "   Result structure: {}" [AJson result] ;;;
      raise (Exception_ "No audio_url in response" [])
  else
    raise (Exception_ "Failed to get result: {}" [JNum (status_code result_response)]).

(** The [while elapsed < max_wait:] loop (lines 110-164). *)
#[local] Opaque max_wait poll_interval.

Equations? poll_loop (w : World) (request_id : Json) (elapsed : Z) : M (string * Time)
  by wf (Z.to_nat (max_wait - elapsed)) lt :=
poll_loop w request_id elapsed :=
  match Z_lt_dec elapsed max_wait with
  | left Hlt =>
      status_response <- request w GET (U_status request_id) 10 ;;
      if negb (ok status_response) then
        print "   Status check failed: {}" [AInt (status_code status_response)] ;;;
        sleep poll_interval ;;;
        poll_loop w request_id (elapsed + poll_interval)
      else
        status <- response_json status_response ;;
        st <- dict_get_default "status" (JStr "unknown") status ;;
        print "   Status: {} ({}s elapsed)" [AJson st; AInt elapsed] ;;;
        st <- dict_get "status" status ;;
        if py_eq_str st "COMPLETE" then
          fetch_result w request_id
        else
          st <- dict_get "status" status ;;
          if py_eq_str st "FAILED" then
            raise (Exception_ "TTS job failed: {}" [status])
          else
            sleep poll_interval ;;;
            poll_loop w request_id (elapsed + poll_interval)
  | right _ =>
      raise timed_out
  end.
Proof.
  all: assert (0 < poll_interval) by exact eq_refl; lia.
Qed.

#[local] Transparent max_wait poll_interval.

Definition generate_tts_with_gradient (w : World) : M (string * Time) :=
  print "Starting TTS generation with DigitalOcean Gradient..." [] ;;;
  if negb (str_truthy (DO_GRADIENT_API_KEY w)) then
    raise (ValueError "DO_GRADIENT_API_KEY environment variable required")
  else
    print "   Sending TTS request to {}/v1/async-invoke..." [] ;;;
    response <- request w POST U_invoke 30 ;;
    if negb (ok response) then
      print "TTS request failed: {} - {}"
            [AInt (status_code response); AStr (text response)] ;;;
      raise (Exception_ "TTS request failed: {}" [JNum (status_code response)])
    else
      job <- response_json response ;;
      request_id <- dict_get "request_id" job ;;
      print "   Job started: {}" [AJson request_id] ;;;
      poll_loop w request_id 0.

(** ** generate_video_with_modal *)

Definition video_path_const : string := "/root/MOLTSTUDIOS/modal-video/test_video.mp4".

Definition modal_generate_video (w : World) : M string :=
  match modal_remote w with
  | ModalImportError => raise (External "ImportError" "modal")
  | ModalBytes b => emit (ModalRemote 48 848 480 50) ;;; ret b
  | ModalRaises d => emit (ModalRemote 48 848 480 50) ;;; raise (External "modal" d)
  end.

Definition generate_video_with_modal (w : World) : M (string * Time) :=
  print "Starting video generation with Modal..." [] ;;;
  try_except
    (result <- modal_generate_video w ;;
     print "Video generated in {:.1f}s" [ATime (video_elapsed w)] ;;;
     write_file w video_path_const ;;;
     print "   Saved to: {}" [AStr video_path_const] ;;;
     ret (video_path_const, video_elapsed w))
    (fun e =>
       print "Video generation failed: {}" [AExn e] ;;;
       raise e).

(** ** combine_video_audio *)

(** [l[i] = x]; Python raises [IndexError] when [i] is out of range. *)
Fixpoint list_setitem {A} (l : list A) (i : nat) (x : A) : option (list A) :=
  match l, i with
  | [], _ => None
  | _ :: t, O => Some (x :: t)
  | h :: t, S i' =>
      match list_setitem t i' x with
      | Some t' => Some (h :: t')
      | None => None
      end
  end.

Definition setitem {A} (l : list A) (i : nat) (x : A) : M (list A) :=
  match list_setitem l i x with
  | Some l' => ret l'
  | None => raise IndexError
  end.

(** [subprocess.run(argv, ...)]: the exit status is returned, not checked. *)
Definition subprocess_run (w : World) (argv : list string) : M Completed :=
  emit (Exec argv) ;;;
  ret (proc w argv).

(** [subprocess.check_output(argv)]: a non-zero exit raises. *)
Definition check_output (w : World) (argv : list string) : M string :=
  r <- subprocess_run w argv ;;
  if returncode r =? 0 then ret (stdout r)
  else raise (External "subprocess.CalledProcessError" (stderr r)).

Definition float_of (w : World) (out : string) : M Time :=
  match py_float w out with
  | Some t => ret t
  | None => raise (ValueError "could not convert string to float")
  end.

Definition probe_cmd_video (video_path : string) : list string :=
  ["ffprobe"; "-v"; "error"; "-show_entries"; "format=duration";
   "-of"; "default=noprint_wrappers=1:nokey=1"; video_path].

Definition ffmpeg_cmd (video_path audio_path output_path : string) : list string :=
  ["ffmpeg"; "-y";
   "-i"; video_path;
   "-i"; audio_path;
   "-c:v"; "copy";
   "-c:a"; "aac";
   "-shortest";
   "-map"; "0:v:0";
   "-map"; "1:a:0";
   output_path].

Definition combine_video_audio (w : World) (video_path audio_path output_path : string)
  : M (string * Time) :=
  print "Combining video and audio with FFmpeg..." [] ;;;
  let probe_cmd := probe_cmd_video video_path in
  out <- check_output w probe_cmd ;;
  video_duration <- float_of w out ;;
  print "   Video duration: {:.2f}s" [ATime video_duration] ;;;
  probe_cmd <- setitem probe_cmd 5 audio_path ;;
  out <- check_output w probe_cmd ;;
  audio_duration <- float_of w out ;;
  print "   Audio duration: {:.2f}s" [ATime audio_duration] ;;;
  let cmd := ffmpeg_cmd video_path audio_path output_path in
  print "   Running: ffmpeg -i {} -i {} -shortest {}"
        [AStr video_path; AStr audio_path; AStr output_path] ;;;
  result <- subprocess_run w cmd ;;
  if negb (returncode result =? 0) then
    print "FFmpeg failed: {}" [AStr (stderr result)] ;;;
    raise (Exception_ "FFmpeg failed: {}" [JNum (returncode result)])
  else
    print "Combined in {:.1f}s" [ATime (combine_elapsed w)] ;;;
    print "   Output: {}" [AStr output_path] ;;;
    ret (output_path, combine_elapsed w).

(** ** run_parallel_generation *)

(** The local variables of [run_parallel_generation] that the join updates. *)
Record Vars : Type := {
  video_path : option string;
  audio_path : option string;
  video_time : Time;
  audio_time : Time
}.

Definition vars0 : Vars :=
  {| video_path := None; audio_path := None; video_time := 0; audio_time := 0 |}.

(** Each task runs in its own worker thread, on a trace of its own. *)
Definition video_run (w : World) : result (string * Time) * TaskState :=
  generate_video_with_modal w init.

Definition audio_run (w : World) : result (string * Time) * TaskState :=
  generate_tts_with_gradient w init.

(** [future.result()]: the task's return value, or its exception re-raised
    in the main thread. *)
Definition future_result (w : World) (future : Future) : M (string * Time) :=
  fun s =>
    match future with
    | video_future => (fst (video_run w), s)
    | audio_future => (fst (audio_run w), s)
    end.

(** [as_completed([video_future, audio_future])]: both futures, in the
    order in which they finish. *)
Definition as_completed (w : World) : list Future :=
  if video_first w then [video_future; audio_future]
  else [audio_future; video_future].

(** The body of the [for future in as_completed(...)] loop (lines 241-249). *)
Definition join_body (w : World) (vars : Vars) (future : Future) : M Vars :=
  try_except
    (result <- future_result w future ;;
     match future with
     | video_future =>
         ret {| video_path := Some (fst result); audio_path := audio_path vars;
                video_time := snd result; audio_time := audio_time vars |}
     | audio_future =>
         ret {| video_path := video_path vars; audio_path := Some (fst result);
                video_time := video_time vars; audio_time := snd result |}
     end)
    (fun e =>
       print "Generation failed: {}" [AExn e] ;;;
       ret vars).

Fixpoint for_each {A B} (l : list A) (acc : B) (body : B -> A -> M B) : M B :=
  match l with
  | [] => ret acc
  | x :: rest => acc' <- body acc x ;; for_each rest acc' body
  end.

(** Which [return] of [run_parallel_generation] is taken. *)
Inductive Exit : Type :=
| Exit_no_video        (* line 253 *)
| Exit_video_only      (* line 259 *)
| Exit_combine_failed  (* line 273 *)
| Exit_summary.        (* end of the function, after the summary *)

Definition output_video_only : string :=
  "/root/MOLTSTUDIOS/modal-video/test_final_video_only.mp4".
Definition output_with_audio : string :=
  "/root/MOLTSTUDIOS/modal-video/test_final_with_audio.mp4".

(** [if not path] on a local that is [None] or a string: the string when truthy. *)
Definition if_path (o : option string) : option string :=
  if str_truthy o then o else None.

Definition banner (title : string) : M unit :=
  print "============================================================" [] ;;;
  print title [] ;;;
  print "============================================================" [].

(** The part of [run_parallel_generation] after the [with] block
    (lines 251-289): what is done with the two results. *)
Definition after_join (w : World) (vars : Vars) : M Exit :=
  match if_path (video_path vars) with
  | None =>
      print "Video generation failed - cannot proceed" [] ;;;
      ret Exit_no_video
  | Some video_path =>
      match if_path (audio_path vars) with
      | None =>
          print "Audio generation failed - outputting video only" [] ;;;
          subprocess_run w ["cp"; video_path; output_video_only] ;;;
          ret Exit_video_only
      | Some audio_path =>
          banner "PHASE 2: Muxing Video + Audio" ;;;
          let output_path := output_with_audio in
          r <- try_except
                 (r <- combine_video_audio w video_path audio_path output_path ;;
                  ret (Some (snd r)))
                 (fun e =>
                    print "Combine failed: {}" [AExn e] ;;;
                    ret None) ;;
          match r with
          | None => ret Exit_combine_failed
          | Some combine_time =>
              banner "GENERATION SUMMARY" ;;;
              print "Video generation time: {:.1f}s" [ATime (video_time vars)] ;;;
              print "Audio generation time: {:.1f}s" [ATime (audio_time vars)] ;;;
              print "Muxing time:          {:.1f}s" [ATime combine_time] ;;;
              print "Total wall time:      {:.1f}s" [ATime (overall_time w)] ;;;
              print "Time saved by parallel: ~{:.1f}s"
                    [ATime (Z.max (video_time vars) (audio_time vars)
                            - Z.min (video_time vars) (audio_time vars))] ;;;
              print "Final output: {}" [AStr output_path] ;;;
              ret Exit_summary
          end
      end
  end.

Definition run_parallel_generation (w : World) : M Exit :=
  banner "MOLT STUDIOS - Video + Audio Generation Test" ;;;
  print "Video prompt: {}..." [] ;;;
  print "TTS text: {}..." [] ;;;
  banner "PHASE 1: Parallel Generation (Video + Audio)" ;;;
  emit (Submit video_future) ;;;
  emit (Submit audio_future) ;;;
  vars <- for_each (as_completed w) vars0 (join_body w) ;;
  after_join w vars.

Definition main_run (w : World) : result Exit * TaskState :=
  run_parallel_generation w init.

(** * Observations on a log *)

(** Seconds spent in [time.sleep]. *)
Fixpoint slept (l : list Event) : Z :=
  match l with
  | [] => 0
  | Sleep n :: rest => n + slept rest
  | _ :: rest => slept rest
  end.

Definition is_status_query (e : Event) : bool :=
  match e with
  | Http GET (U_status _) _ => true
  | _ => false
  end.

Definition is_result_fetch (e : Event) : bool :=
  match e with
  | Http GET (U_result _) _ => true
  | _ => false
  end.

Definition is_http (e : Event) : bool :=
  match e with
  | Http _ _ _ => true
  | _ => false
  end.

Definition count (p : Event -> bool) (l : list Event) : nat :=
  List.length (filter p l).

(** An upper bound on the seconds a log can have taken: every request
    carries its timeout, every sleep its length. *)
Fixpoint worst_case (l : list Event) : Z :=
  match l with
  | [] => 0
  | Http _ _ timeout :: rest => timeout + worst_case rest
  | Sleep n :: rest => n + worst_case rest
  | _ :: rest => worst_case rest
  end.

(** The external commands of a log, oldest first. *)
Fixpoint execs_newest_first (l : list Event) : list (list string) :=
  match l with
  | [] => []
  | Exec argv :: rest => argv :: execs_newest_first rest
  | _ :: rest => execs_newest_first rest
  end.

Definition execs (l : list Event) : list (list string) :=
  rev (execs_newest_first l).

(** Whether a line with this format was printed. *)
Definition printed (fmt : string) (l : list Event) : bool :=
  existsb (fun e => match e with
                    | Print f _ => (f =? fmt)%string
                    | _ => false
                    end) l.

(** The requests of an event that name a job do so by this handle. *)
Definition uses_handle (rid : Json) (e : Event) : Prop :=
  match e with
  | Http _ (U_status r) _ => r = rid
  | Http _ (U_result r) _ => r = rid
  | _ => True
  end.

(** Whether the status reply of a tick leaves the loop in its polling
    state: a reply that is not ok, or an ok reply whose status is neither
    COMPLETE nor FAILED. *)
Definition keeps_polling (reply : HttpReply) : bool :=
  match reply with
  | Fails _ => false
  | Responds r =>
      if ok r then
        match json r with
        | Some (JObj fields) =>
            match dict_lookup "status" fields with
            | Some st => negb (py_eq_str st "COMPLETE") && negb (py_eq_str st "FAILED")
            | None => true
            end
        | _ => false
        end
      else true
  end.

(** * Statements and example worlds *)

(** What a run of the loop from [elapsed] adds to the log.  The counter
    [elapsed] of the loop is the starting value plus the seconds slept. *)
Record loop_facts (elapsed : Z) (r : result (string * Time)) (tr : list Event) : Prop := {
  lf_slept_nonneg : 0 <= slept tr;
  lf_timeout : r = Raise timed_out <-> max_wait <= elapsed + slept tr;
  lf_exit : max_wait <= elapsed -> slept tr = 0;
  lf_ceiling : elapsed + slept tr < Z.max elapsed max_wait + poll_interval;
  lf_ticks_timeout :
    r = Raise timed_out ->
    Z.of_nat (count is_status_query tr) * poll_interval = slept tr;
  lf_ticks_other :
    r <> Raise timed_out ->
    Z.of_nat (count is_status_query tr) * poll_interval = slept tr + poll_interval;
  lf_one_fetch : (count is_result_fetch tr <= 1)%nat;
  lf_worst_case :
    worst_case tr <= 10 * Z.of_nat (count is_status_query tr) + slept tr + 90
}.

Definition resp (okb : bool) (code : Z) (body : option Json) : Response :=
  {| ok := okb; status_code := code; text := EmptyString; json := body;
     content := EmptyString |}.

Definition world (key : option string) (h : nat -> Method -> Url -> HttpReply)
    (m : ModalReply) (p : list string -> Completed) : World :=
  {| DO_GRADIENT_API_KEY := key;
     http := h;
     modal_remote := m;
     fs_write_ok := fun _ => true;
     proc := p;
     py_float := fun _ => Some 5;
     video_elapsed := 40;
     audio_elapsed := 15;
     combine_elapsed := 1;
     overall_time := 41;
     video_first := false |}.

(** The job is accepted, runs for two ticks and completes. *)
Definition provider_ok (n : nat) (m : Method) (u : Url) : HttpReply :=
  match u with
  | U_invoke => Responds (resp true 200 (Some (JObj [("request_id", JStr "r1")])))
  | U_status _ =>
      if (n <? 3)%nat
      then Responds (resp true 200 (Some (JObj [("status", JStr "RUNNING")])))
      else Responds (resp true 200 (Some (JObj [("status", JStr "COMPLETE")])))
  | U_result _ =>
      Responds (resp true 200
                  (Some (JObj [("output", JObj [("audio_url", JStr "https://cdn/a.mp3")])])))
  | U_audio _ => Responds (resp true 200 None)
  end.

(** The job is accepted; every status query is answered 503. *)
Definition provider_503 (n : nat) (m : Method) (u : Url) : HttpReply :=
  match u with
  | U_invoke => Responds (resp true 200 (Some (JObj [("request_id", JStr "r1")])))
  | _ => Responds (resp false 503 None)
  end.

(** The job is accepted; the status endpoint cannot be reached. *)
Definition provider_unreachable (n : nat) (m : Method) (u : Url) : HttpReply :=
  match u with
  | U_invoke => Responds (resp true 200 (Some (JObj [("request_id", JStr "r1")])))
  | _ => Fails "connection reset"
  end.


(** The job completes at once, but its result cannot be fetched. *)
Definition provider_result_500 (n : nat) (m : Method) (u : Url) : HttpReply :=
  match u with
  | U_invoke => Responds (resp true 200 (Some (JObj [("request_id", JStr "r1")])))
  | U_status _ => Responds (resp true 200 (Some (JObj [("status", JStr "COMPLETE")])))
  | _ => Responds (resp false 500 None)
  end.

Definition tools_ok (argv : list string) : Completed :=
  {| returncode := 0; stdout := "5.2"; stderr := EmptyString |}.

Definition ffmpeg_fails (argv : list string) : Completed :=
  match argv with
  | "ffmpeg" :: _ => {| returncode := 1; stdout := EmptyString; stderr := "Invalid data" |}
  | _ => tools_ok argv
  end.

Definition w_ok : World := world (Some "key") provider_ok (ModalBytes "mp4") tools_ok.
Definition w_503 : World := world (Some "key") provider_503 (ModalBytes "mp4") tools_ok.
Definition w_unreachable : World :=
  world (Some "key") provider_unreachable (ModalBytes "mp4") tools_ok.
Definition w_result_500 : World :=
  world (Some "key") provider_result_500 (ModalBytes "mp4") tools_ok.
Definition w_no_key : World := world None provider_ok (ModalBytes "mp4") tools_ok.
Definition w_no_video : World :=
  world (Some "key") provider_ok (ModalRaises "timeout") tools_ok.
Definition w_nothing : World := world None provider_ok ModalImportError tools_ok.
Definition w_ffmpeg_fails : World :=
  world (Some "key") provider_ok (ModalBytes "mp4") ffmpeg_fails.

(** A status query that fails "transiently", in the words of the
    specification: the request raises, or is answered with a status that
    is not ok. *)
Definition transient (reply : HttpReply) : bool :=
  match reply with
  | Fails _ => true
  | Responds r => negb (ok r)
  end.

(** The specification's reading of a transient failure: the tick is retried,
    that is, the loop goes on from [elapsed + poll_interval] after one
    query, one log line and one sleep. *)
Definition retried_on_next_tick (w : World) (rid : Json) (elapsed : Z) (s : TaskState) : Prop :=
  elapsed < max_wait ->
  transient (http w (nreq s) GET (U_status rid)) = true ->
  exists fmt args,
    poll_loop w rid elapsed s =
    poll_loop w rid (elapsed + poll_interval)
      {| log := Sleep poll_interval :: Print fmt args
                  :: Http GET (U_status rid) 10 :: log s;
         nreq := S (nreq s) |}.

Definition get_or_null (key : string) (fields : list (string * Json)) : Json :=
  match dict_lookup key fields with
  | Some v => v
  | None => JNull
  end.




Definition outcome_path (r : result (string * Time)) : option string :=
  match r with
  | Return a => Some (fst a)
  | Raise _ => None
  end.

Definition outcome_time (r : result (string * Time)) : Time :=
  match r with
  | Return a => snd a
  | Raise _ => 0
  end.

(** The locals after the join: each slot holds what its own task returned,
    or its initial value when the task raised. *)
Definition joined (w : World) : Vars :=
  {| video_path := outcome_path (fst (video_run w));
     audio_path := outcome_path (fst (audio_run w));
     video_time := outcome_time (fst (video_run w));
     audio_time := outcome_time (fst (audio_run w)) |}.

Definition failure_line (r : result (string * Time)) : list Event :=
  match r with
  | Return _ => []
  | Raise e => [Print "Generation failed: {}" [AExn e]]
  end.

(** What the join prints (newest first): one line per failed task, in
    completion order. *)
Definition join_log (w : World) : list Event :=
  if video_first w
  then failure_line (fst (audio_run w)) ++ failure_line (fst (video_run w))
  else failure_line (fst (video_run w)) ++ failure_line (fst (audio_run w)).

(** The log of the main thread when the join starts. *)
Definition before_join : TaskState :=
  {| log := [Submit audio_future; Submit video_future;
             Print "============================================================" [];
             Print "PHASE 1: Parallel Generation (Video + Audio)" [];
             Print "============================================================" [];
             Print "TTS text: {}..." [];
             Print "Video prompt: {}..." [];
             Print "============================================================" [];
             Print "MOLT STUDIOS - Video + Audio Generation Test" [];
             Print "============================================================" []];
     nreq := 0 |}.

Definition at_join (w : World) : TaskState :=
  {| log := join_log w ++ log before_join; nreq := 0 |}.

(** The muxer is invoked with both artifacts: the run is one call of
    [combine_video_audio] on them (from a log without commands), it runs no
    other command, and it ends in the summary or in the mux failure
    according to that call. *)
Definition muxed (w : World) (vp ap : string) (run : result Exit * TaskState) : Prop :=
  exists s0,
    execs (log s0) = [] /\
    fst run = Return (match fst (combine_video_audio w vp ap output_with_audio s0) with
                      | Return _ => Exit_summary
                      | Raise _ => Exit_combine_failed
                      end) /\
    execs (log (snd run)) =
    execs (log (snd (combine_video_audio w vp ap output_with_audio s0))).

Definition is_media_tool (argv : list string) : bool :=
  match argv with
  | cmd :: _ => (cmd =? "ffprobe")%string || (cmd =? "ffmpeg")%string
  | [] => false
  end.

(** The specification's reading: without the key nothing is launched. *)
Definition fails_fast_without_key (w : World) : Prop :=
  str_truthy (DO_GRADIENT_API_KEY w) = false ->
  ~ In (Submit video_future) (log (snd (main_run w))) /\
  ~ In (Submit audio_future) (log (snd (main_run w))) /\
  log (snd (video_run w)) = [].


(** ** run_sequential_test and the entry point *)

(** [traceback.print_exc()] *)
Definition print_exc (e : exn) : M unit :=
  print "Traceback (most recent call last): {}" [AExn e].

(** Lines 292-308; the audio task runs in the calling thread. *)
Definition run_sequential_test (w : World) : M unit :=
  banner "MOLT STUDIOS - TTS Only Test" ;;;
  try_except
    (r <- generate_tts_with_gradient w ;;
     print "TTS test complete in {:.1f}s" [ATime (snd r)] ;;;
     print "   Audio file: {}" [AStr (fst r)])
    (fun e =>
       print "TTS test failed: {}" [AExn e] ;;;
       print_exc e).

(** The [if __name__ == "__main__":] block (lines 311-315) on [sys.argv]. *)
Definition main (w : World) (argv : list string) : M unit :=
  match argv with
  | _ :: arg1 :: _ =>
      if (arg1 =? "--tts-only")%string
      then run_sequential_test w
      else run_parallel_generation w ;;; ret tt
  | _ => run_parallel_generation w ;;; ret tt
  end.

(** * Further statements *)

(** The effects the audio task can have: prints, its four kinds of request
    with their timeouts, sleeps of one poll interval and the write of the
    audio file. *)
Definition audio_effect (e : Event) : bool :=
  match e with
  | Print _ _ => true
  | Http POST U_invoke timeout => timeout =? 30
  | Http GET (U_status _) timeout => timeout =? 10
  | Http GET (U_result _) timeout => timeout =? 30
  | Http GET (U_audio _) timeout => timeout =? 60
  | Http _ _ _ => false
  | Sleep n => n =? poll_interval
  | WriteFile p => (p =? audio_path_const)%string
  | _ => false
  end.

Definition is_download (e : Event) : bool :=
  match e with
  | Http GET (U_audio _) _ => true
  | _ => false
  end.

(** [result.get('audio_url') or result.get('output', {}).get('audio_url')]
    on a result object, when it does not raise. *)
Definition chosen_audio_url (fields : list (string * Json)) : Json :=
  if truthy (get_or_null "audio_url" fields)
  then get_or_null "audio_url" fields
  else
    match dict_lookup "output" fields with
    | None => JNull
    | Some (JObj out) => get_or_null "audio_url" out
    | Some _ => JNull
    end.

(** The job completes at once and its result names an audio URL, but the
    download of that URL is answered 404. *)
Definition provider_download_404 (n : nat) (m : Method) (u : Url) : HttpReply :=
  match u with
  | U_invoke => Responds (resp true 200 (Some (JObj [("request_id", JStr "r1")])))
  | U_status _ => Responds (resp true 200 (Some (JObj [("status", JStr "COMPLETE")])))
  | U_result _ =>
      Responds (resp true 200 (Some (JObj [("audio_url", JStr "https://cdn/a.mp3")])))
  | U_audio _ => Responds (resp false 404 None)
  end.

Definition w_download_404 : World :=
  world (Some "key") provider_download_404 (ModalBytes "mp4") tools_ok.

(** The result carries an audio URL at top level and a different one
    under [output]. *)
Definition provider_two_urls (n : nat) (m : Method) (u : Url) : HttpReply :=
  match u with
  | U_invoke => Responds (resp true 200 (Some (JObj [("request_id", JStr "r1")])))
  | U_status _ => Responds (resp true 200 (Some (JObj [("status", JStr "COMPLETE")])))
  | U_result _ =>
      Responds (resp true 200
                  (Some (JObj [("output", JObj [("audio_url", JStr "https://cdn/b.mp3")]);
                               ("audio_url", JStr "https://cdn/a.mp3")])))
  | U_audio _ => Responds (resp true 200 None)
  end.

Definition w_two_urls : World :=
  world (Some "key") provider_two_urls (ModalBytes "mp4") tools_ok.

(** Whether the submit got the task as far as the poll loop: the key is
    set, the POST is answered ok, and its body is a JSON object. *)
Definition submit_accepted (w : World) (n : nat) : bool :=
  str_truthy (DO_GRADIENT_API_KEY w) &&
  match http w n POST U_invoke with
  | Fails _ => false
  | Responds r =>
      ok r && match json r with
              | Some (JObj _) => true
              | _ => false
              end
  end.

(** The job is accepted, runs for two ticks and then fails. *)
Definition provider_job_fails (n : nat) (m : Method) (u : Url) : HttpReply :=
  match u with
  | U_invoke => Responds (resp true 200 (Some (JObj [("request_id", JStr "r1")])))
  | U_status _ =>
      if (n <? 3)%nat
      then Responds (resp true 200 (Some (JObj [("status", JStr "RUNNING")])))
      else Responds (resp true 200
                       (Some (JObj [("status", JStr "FAILED"); ("error", JStr "quota")])))
  | _ => Responds (resp false 404 None)
  end.

Definition w_job_fails : World :=
  world (Some "key") provider_job_fails (ModalBytes "mp4") tools_ok.

(** The provider answers the submit with 401. *)
Definition provider_unauthorized (n : nat) (m : Method) (u : Url) : HttpReply :=
  Responds (resp false 401 None).

Definition w_unauthorized : World :=
  world (Some "bad") provider_unauthorized (ModalBytes "mp4") tools_ok.

Definition is_modal_call (e : Event) : bool :=
  match e with
  | ModalRemote _ _ _ _ => true
  | _ => false
  end.

Definition is_write (e : Event) : bool :=
  match e with
  | WriteFile _ => true
  | _ => false
  end.

(** Whether a duration probe gets through: the command exits 0 and its
    output parses as a float. *)
Definition probe_succeeds (w : World) (cmd : list string) : bool :=
  (returncode (proc w cmd) =? 0) &&
  match py_float w (stdout (proc w cmd)) with
  | Some _ => true
  | None => false
  end.

(** The list [probe_cmd] after [probe_cmd[5] = audio_path]. *)
Definition probe_cmd_after_setitem (video_path audio_path : string) : list string :=
  match list_setitem (probe_cmd_video video_path) 5 audio_path with
  | Some l => l
  | None => []
  end.

(** Whether the three commands of the mux step all get through. *)
Definition mux_succeeds (w : World) (v a o : string) : bool :=
  probe_succeeds w (probe_cmd_video v) &&
  probe_succeeds w (probe_cmd_after_setitem v a) &&
  (returncode (proc w (ffmpeg_cmd v a o)) =? 0).

Definition returned {A} (r : result A) : bool :=
  match r with
  | Return _ => true
  | Raise _ => false
  end.

(** * The Modal services

    [video_gen.py], [video_gen_ltx.py], [video_gen_v2.py] and [ltx2_gen.py]:
    the web endpoints [generate_video], the way their keyword arguments bind
    to the parameters of [generate], and the arguments that [generate] of
    [ltx2_gen.py] hands to the diffusion pipeline.  The run of a model on the
    GPU is an oracle. *)

(** A value of a request or an argument: JSON as above, or a finite float,
    given by its exact value [num/den]. *)
Inductive PyVal : Type :=
| PJ (j : Json)
| PFloat (num : Z) (den : positive).

Definition PNone : PyVal := PJ JNull.
Definition PInt (n : Z) : PyVal := PJ (JNum n).
Definition PStr (s : string) : PyVal := PJ (JStr s).

Definition py_truthy (v : PyVal) : bool :=
  match v with
  | PJ j => truthy j
  | PFloat num _ => negb (num =? 0)
  end.

(** A dict with string keys, and the keyword arguments of a call. *)
Definition Dict : Type := list (string * PyVal).

Fixpoint py_lookup (key : string) (d : Dict) : option PyVal :=
  match d with
  | [] => None
  | (k, v) :: rest => if (k =? key)%string then Some v else py_lookup key rest
  end.

(** [d.get(key)] *)
Definition py_get (key : string) (d : Dict) : PyVal :=
  match py_lookup key d with
  | Some v => v
  | None => PNone
  end.

(** [d.get(key, default)] *)
Definition py_get_default (key : string) (default : PyVal) (d : Dict) : PyVal :=
  match py_lookup key d with
  | Some v => v
  | None => default
  end.

(** [d[key] = v] *)
Fixpoint py_setitem (key : string) (v : PyVal) (d : Dict) : Dict :=
  match d with
  | [] => [(key, v)]
  | (k, x) :: rest =>
      if (k =? key)%string then (k, v) :: rest else (k, x) :: py_setitem key v rest
  end.

(** The parameters of a function after [self], each with its default if it
    has one. *)
Definition Signature : Type := list (string * option PyVal).

Definition accepts (sig : Signature) (name : string) : bool :=
  existsb (fun p => (fst p =? name)%string) sig.

Fixpoint bind_parameters (sig : Signature) (kwargs : Dict) : result Dict :=
  match sig with
  | [] => Return []
  | (name, default) :: rest =>
      match (match py_lookup name kwargs with
             | Some v => Some v
             | None => default
             end) with
      | None => Raise TypeError          (* missing required argument *)
      | Some v =>
          match bind_parameters rest kwargs with
          | Return d => Return ((name, v) :: d)
          | Raise e => Raise e
          end
      end
  end.

(** A call [f(k1=v1, ...)]: an unexpected keyword or a missing argument is a
    [TypeError]; otherwise the locals of the body. *)
Definition call_with_keywords (sig : Signature) (kwargs : Dict) : result Dict :=
  if forallb (fun kv => accepts sig (fst kv)) kwargs
  then bind_parameters sig kwargs
  else Raise TypeError.

(** [generator.generate.remote(...)]: the arguments are bound to the
    parameters of [generate]; [run] stands for its body on the GPU.  The
    second component lists the runs of the body, with their locals. *)
Definition remote (sig : Signature) (run : Dict -> result Dict) (kwargs : Dict)
  : result Dict * list Dict :=
  match call_with_keywords sig kwargs with
  | Return params => (run params, [params])
  | Raise e => (Raise e, [])
  end.

Definition prompt_required : Dict := [("error", PStr "prompt is required")].

Module video_gen.

(** [MochiVideoGenerator.generate] (lines 97-108) *)
Definition generate_signature : Signature :=
  [("prompt", None);
   ("negative_prompt", Some (PStr "low quality, blurry, distorted"));
   ("num_frames", Some (PInt 84));
   ("fps", Some (PInt 24));
   ("width", Some (PInt 848));
   ("height", Some (PInt 480));
   ("num_inference_steps", Some (PInt 50));
   ("guidance_scale", Some (PFloat 9 2));
   ("seed", Some PNone)].

(** [def generate_video(request: dict) -> dict] (line 206) *)
Definition generate_video_signature : Signature := [("request", None)].

(** The endpoint (lines 206-246). *)
Definition generate_video (run : Dict -> result Dict) (request : Dict)
  : result Dict * list Dict :=
  let prompt := py_get "prompt" request in
  if negb (py_truthy prompt) then (Return prompt_required, [])
  else
    remote generate_signature run
      [("prompt", prompt);
       ("negative_prompt",
        py_get_default "negative_prompt" (PStr "low quality, blurry, distorted") request);
       ("num_frames", py_get_default "num_frames" (PInt 84) request);
       ("fps", py_get_default "fps" (PInt 24) request);
       ("width", py_get_default "width" (PInt 848) request);
       ("height", py_get_default "height" (PInt 480) request);
       ("num_inference_steps", py_get_default "num_inference_steps" (PInt 50) request);
       ("guidance_scale", py_get_default "guidance_scale" (PFloat 9 2) request);
       ("seed", py_get "seed" request)].

End video_gen.

Module video_gen_ltx.

(** [LTXVideoGenerator.generate] (lines 66-77) *)
Definition generate_signature : Signature :=
  [("prompt", None);
   ("negative_prompt", Some (PStr "worst quality, inconsistent motion, blurry"));
   ("num_frames", Some (PInt 121));
   ("fps", Some (PInt 24));
   ("width", Some (PInt 704));
   ("height", Some (PInt 480));
   ("num_inference_steps", Some (PInt 40));
   ("guidance_scale", Some (PFloat 3 1));
   ("seed", Some PNone)].

(** The endpoint (lines 140-158). *)
Definition generate_video (run : Dict -> result Dict) (request : Dict)
  : result Dict * list Dict :=
  let prompt := py_get "prompt" request in
  if negb (py_truthy prompt) then (Return prompt_required, [])
  else
    remote generate_signature run
      [("prompt", prompt);
       ("negative_prompt",
        py_get_default "negative_prompt" (PStr "worst quality, blurry") request);
       ("num_frames", py_get_default "num_frames" (PInt 121) request);
       ("fps", py_get_default "fps" (PInt 24) request);
       ("width", py_get_default "width" (PInt 704) request);
       ("height", py_get_default "height" (PInt 480) request);
       ("num_inference_steps", py_get_default "num_inference_steps" (PInt 40) request);
       ("guidance_scale", py_get_default "guidance_scale" (PFloat 3 1) request);
       ("seed", py_get "seed" request)].

End video_gen_ltx.

Module video_gen_v2.

(** [VideoGeneratorV2.generate] (lines 88-99) *)
Definition generate_signature : Signature :=
  [("prompt", None);
   ("negative_prompt",
    Some (PStr "low quality, distorted, warping, shaky, text, watermark"));
   ("num_frames", Some (PInt 85));
   ("fps", Some (PInt 24));
   ("width", Some (PInt 1280));
   ("height", Some (PInt 720));
   ("num_inference_steps", Some (PInt 30));
   ("guidance_scale", Some (PFloat 6 1));
   ("seed", Some PNone)].

(** The endpoint (lines 150-168). *)
Definition generate_video (run : Dict -> result Dict) (request : Dict)
  : result Dict * list Dict :=
  let prompt := py_get "prompt" request in
  if negb (py_truthy prompt) then (Return prompt_required, [])
  else
    remote generate_signature run
      [("prompt", prompt);
       ("negative_prompt", py_get "negative_prompt" request);
       ("num_frames", py_get_default "num_frames" (PInt 85) request);
       ("fps", py_get_default "fps" (PInt 24) request);
       ("width", py_get_default "width" (PInt 1280) request);
       ("height", py_get_default "height" (PInt 720) request);
       ("seed", py_get "seed" request)].

(** The keys of the request that the endpoint reads. *)
Definition keys_read : list string :=
  ["prompt"; "negative_prompt"; "num_frames"; "fps"; "width"; "height"; "seed"].

End video_gen_v2.

Module ltx2_gen.

(** [LTX2Generator.generate] (lines 86-98) *)
Definition generate_signature : Signature :=
  [("prompt", None);
   ("audio_text", Some PNone);
   ("negative_prompt", Some (PStr "low quality, worst quality, deformed, distorted"));
   ("num_frames", Some (PInt 121));
   ("fps", Some (PInt 24));
   ("width", Some (PInt 1280));
   ("height", Some (PInt 704));
   ("num_inference_steps", Some (PInt 50));
   ("guidance_scale", Some (PFloat 15 2));
   ("seed", Some PNone)].

(** The seed of the generator (lines 107-112): the one given, or a random
    one when none is given. *)
Definition seed_used (random : Z) (p : Dict) : PyVal :=
  match py_get "seed" p with
  | PJ JNull => PInt random
  | seed => seed
  end.

(** ["name" in sig.parameters] *)
Definition in_parameters (name : string) (parameters : list string) : bool :=
  existsb (fun p => (p =? name)%string) parameters.

(** The keyword arguments that [self.pipe] is called with (lines 119-138), from the
    locals [p] of [generate] and the parameter names of the pipeline; the
    generator is given by the seed it was made with. *)
Definition pipe_kwargs (parameters : list string) (random : Z) (p : Dict) : Dict :=
  let kwargs := [("prompt", py_get "prompt" p);
                 ("negative_prompt", py_get "negative_prompt" p);
                 ("num_inference_steps", py_get "num_inference_steps" p);
                 ("guidance_scale", py_get "guidance_scale" p);
                 ("generator", seed_used random p)] in
  let kwargs := if in_parameters "num_frames" parameters
                then py_setitem "num_frames" (py_get "num_frames" p) kwargs
                else kwargs in
  let kwargs := if in_parameters "height" parameters
                then py_setitem "height" (py_get "height" p) kwargs
                else kwargs in
  let kwargs := if in_parameters "width" parameters
                then py_setitem "width" (py_get "width" p) kwargs
                else kwargs in
  let kwargs := if in_parameters "frame_rate" parameters
                then py_setitem "frame_rate" (py_get "fps" p) kwargs
                else kwargs in
  kwargs.

(** [generate] up to the call of the pipeline: the bound arguments, then
    the keyword arguments of the pipeline. *)
Definition generate_pipe_kwargs (parameters : list string) (random : Z) (kwargs : Dict)
  : result Dict :=
  match call_with_keywords generate_signature kwargs with
  | Return p => Return (pipe_kwargs parameters random p)
  | Raise e => Raise e
  end.

End ltx2_gen.

(** The keyword arguments of [generate_video.remote(...)] in
    [generate_video_with_modal] (test_video_with_audio.py, lines 43-49). *)
Definition VIDEO_PROMPT : string :=
  "A warm, cinematic scene of anthropomorphic lobsters gathered around an oak table in a cozy writers room, collaboratively writing movie scripts together. Soft golden lamplight, papers and fountain pens scattered across the table, one lobster gestures expressively while pitching an idea. Classic Americana aesthetic reminiscent of Norman Rockwell, film grain, 4K quality, shallow depth of field.".

Definition TTS_TEXT : string :=
  "Welcome to Molt Studios, where autonomous lobsters collaborate to create the world's finest motion pictures. In our writers' room, ideas flow as freely as the ocean currents. Together, we craft stories that matter.".

Definition modal_call_kwargs : Dict :=
  [("prompt", PStr VIDEO_PROMPT);
   ("num_frames", PInt 48);
   ("width", PInt 848);
   ("height", PInt 480);
   ("num_inference_steps", PInt 50)].

Module test_ltx2_release.

(** The keyword arguments of [f.remote(...)] in [run_test] (lines 33-39). *)
Definition run_test_kwargs : Dict :=
  [("prompt", PStr VIDEO_PROMPT);
   ("audio_text", PStr TTS_TEXT);
   ("num_frames", PInt 121);
   ("width", PInt 1280);
   ("height", PInt 720)].

End test_ltx2_release.

(** An endpoint asks for a prompt: a request whose [prompt] is missing or
    falsy is answered with the error dict and [generate] does not run;
    otherwise [generate] is called once, with that prompt, and its result or
    exception is the endpoint's. *)
Definition requires_prompt
    (endpoint : (Dict -> result Dict) -> Dict -> result Dict * list Dict) : Prop :=
  forall run request,
    if py_truthy (py_get "prompt" request)
    then exists params,
           endpoint run request = (run params, [params]) /\
           py_lookup "prompt" params = Some (py_get "prompt" request)
    else endpoint run request = (Return prompt_required, []).

(** Two dicts hold the same values under the given keys. *)
Definition agree_on (keys : list string) (d1 d2 : Dict) : Prop :=
  forall k, In k keys -> py_lookup k d1 = py_lookup k d2.

(** The keyword arguments that take each key from the request, or its
    default when the request lacks the key. *)
Definition from_request (request : Dict) (defaults : Dict) : Dict :=
  map (fun kd => (fst kd, py_get_default (fst kd) (snd kd) request)) defaults.

(** ** The requests after COMPLETE *)

(** A request for the result of the job or for the audio it names. *)
Definition is_fetch (e : Event) : bool := is_result_fetch e || is_download e.

(** A request that failed on the wire: it raised, or was answered not ok. *)
Definition reply_failed (reply : HttpReply) : bool :=
  match reply with
  | Fails _ => true
  | Responds r => negb (ok r)
  end.

(** The requests of a task in the order in which it sent them; the [n]-th
    one was answered by [http w n]. *)
Definition requests_of (s : TaskState) : list Event := filter is_http (history s).

(** The specification's reading of the step after COMPLETE: the audio task
    makes one further fetch, and a fetch that fails makes the task fail. *)
Definition single_checked_fetch (w : World) : Prop :=
  (count is_fetch (log (snd (audio_run w))) <= 1)%nat /\
  (forall n m u t,
      nth_error (requests_of (snd (audio_run w))) n = Some (Http m u t) ->
      is_fetch (Http m u t) = true ->
      reply_failed (http w n m u) = true ->
      returned (fst (audio_run w)) = false).

(** * Basic facts *)

Lemma poll_interval_pos : 0 < poll_interval.
Proof. reflexivity. Qed.

Lemma slept_app l1 l2 : slept (l1 ++ l2) = slept l1 + slept l2.
Proof.
  induction l1 as [|e l1 IH]; simpl; [reflexivity|].
  destruct e; rewrite IH; lia.
Qed.

Lemma worst_case_app l1 l2 : worst_case (l1 ++ l2) = worst_case l1 + worst_case l2.
Proof.
  induction l1 as [|e l1 IH]; simpl; [reflexivity|].
  destruct e; rewrite IH; lia.
Qed.

Lemma count_app p l1 l2 : count p (l1 ++ l2) = (count p l1 + count p l2)%nat.
Proof. unfold count. rewrite filter_app, length_app. reflexivity. Qed.

Lemma execs_newest_first_app l1 l2 :
  execs_newest_first (l1 ++ l2) = execs_newest_first l1 ++ execs_newest_first l2.
Proof.
  induction l1 as [|e l1 IH]; simpl; [reflexivity|].
  destruct e; rewrite IH; reflexivity.
Qed.

Lemma execs_app l1 l2 : execs (l1 ++ l2) = execs l2 ++ execs l1.
Proof. unfold execs. rewrite execs_newest_first_app, rev_app_distr. reflexivity. Qed.

Lemma printed_app fmt l1 l2 : printed fmt (l1 ++ l2) = printed fmt l1 || printed fmt l2.
Proof. apply existsb_app. Qed.

(** Unfolding the monad. *)
Ltac unfold_m :=
  unfold bind, ret, raise, try_except, print, sleep, write_file, emit,
    request, response_json, dict_get, dict_get_default in *.

Ltac mred := repeat (unfold_m; cbn [fst snd log nreq negb andb]).

(** Closes the side conditions on a concrete list of new events. *)
Ltac log_facts :=
  solve [repeat split; try reflexivity; try (unfold timed_out; discriminate);
         try (unfold count; simpl; lia); try (simpl; tauto);
         try (repeat constructor)].

Ltac case_oracle :=
  match goal with
  | |- context [match http ?w ?n ?m ?u with _ => _ end] => destruct (http w n m u) eqn:?
  | |- context [if ok ?r then _ else _] => destruct (ok r) eqn:?
  | |- context [if negb (ok ?r) then _ else _] => destruct (ok r) eqn:?
  | |- context [match json ?r with _ => _ end] => destruct (json r) eqn:?
  | |- context [match dict_lookup ?k ?f with _ => _ end] => destruct (dict_lookup k f) eqn:?
  | |- context [if truthy ?j then _ else _] => destruct (truthy j) eqn:?
  | |- context [if py_eq_str ?j ?l then _ else _] => destruct (py_eq_str j l) eqn:?
  | |- context [if fs_write_ok ?w ?p then _ else _] => destruct (fs_write_ok w p) eqn:?
  | |- context [match ?j with JNull => _ | _ => _ end] => destruct j eqn:?
  end.

(** Solves [exists tr, e1 :: ... :: en :: l = tr ++ l /\ P tr] by reading
    the new events off the log. *)
Ltac prefix_of l base :=
  lazymatch l with
  | base => constr:(@nil Event)
  | ?e :: ?rest => let p := prefix_of rest base in constr:(e :: p)
  end.

Ltac split_log :=
  lazymatch goal with
  | |- exists tr, ?l = tr ++ ?base /\ _ =>
      let p := prefix_of l base in
      exists p; split; [reflexivity|]
  end.

(** * The result fetch *)

(** What [fetch_result] adds to the log: one result fetch, at most one
    download, no sleep and no status query; and it never reports a
    timeout. *)
Lemma fetch_result_log w rid s :
  exists tr,
    log (snd (fetch_result w rid s)) = tr ++ log s /\
    nreq (snd (fetch_result w rid s)) = (nreq s + count is_http tr)%nat /\
    slept tr = 0 /\
    count is_status_query tr = 0%nat /\
    count is_result_fetch tr = 1%nat /\
    worst_case tr <= 90 /\
    fst (fetch_result w rid s) <> Raise timed_out /\
    In (Http GET (U_result rid) 30) tr /\
    Forall (uses_handle rid) tr.
Proof.
  unfold fetch_result.
  repeat (unfold_m; cbn [fst snd log nreq negb]; try case_oracle).
  all: split_log; log_facts.
Qed.

(** * One tick of the poll loop *)

Section Tick.

Variable w : World.
Variable rid : Json.

Lemma poll_loop_exit elapsed s :
  max_wait <= elapsed ->
  poll_loop w rid elapsed s = (Raise timed_out, s).
Proof.
  intros H. rewrite poll_loop_equation_1.
  destruct (Z_lt_dec elapsed max_wait); [lia | reflexivity].
Qed.

(** The status query answers, but not ok: log, sleep, next tick. *)
Lemma poll_loop_not_ok elapsed s r :
  elapsed < max_wait ->
  http w (nreq s) GET (U_status rid) = Responds r ->
  ok r = false ->
  poll_loop w rid elapsed s =
  poll_loop w rid (elapsed + poll_interval)
    {| log := Sleep poll_interval
                :: Print "   Status check failed: {}" [AInt (status_code r)]
                :: Http GET (U_status rid) 10 :: log s;
       nreq := S (nreq s) |}.
Proof.
  intros Hlt Hr Hok. rewrite poll_loop_equation_1.
  destruct (Z_lt_dec elapsed max_wait); [|lia].
  mred. rewrite Hr. mred. rewrite Hok. reflexivity.
Qed.

(** The status query answers ok and the job is neither COMPLETE nor
    FAILED: sleep, next tick. *)
Lemma poll_loop_pending elapsed s r fields :
  elapsed < max_wait ->
  http w (nreq s) GET (U_status rid) = Responds r ->
  ok r = true ->
  json r = Some (JObj fields) ->
  (forall st, dict_lookup "status" fields = Some st ->
              py_eq_str st "COMPLETE" = false /\ py_eq_str st "FAILED" = false) ->
  poll_loop w rid elapsed s =
  poll_loop w rid (elapsed + poll_interval)
    {| log := Sleep poll_interval
                :: Print "   Status: {} ({}s elapsed)"
                     [AJson (match dict_lookup "status" fields with
                             | Some st => st
                             | None => JStr "unknown"
                             end); AInt elapsed]
                :: Http GET (U_status rid) 10 :: log s;
       nreq := S (nreq s) |}.
Proof.
  intros Hlt Hr Hok Hj Hst. rewrite poll_loop_equation_1.
  destruct (Z_lt_dec elapsed max_wait); [|lia].
  mred. rewrite Hr. mred. rewrite Hok. mred. rewrite Hj. mred.
  destruct (dict_lookup "status" fields) as [st|] eqn:E; mred.
  - destruct (Hst st eq_refl) as [Hc Hf]. rewrite Hc, Hf. reflexivity.
  - reflexivity.
Qed.

(** The status query raises: the exception leaves the loop. *)
Lemma poll_loop_transport elapsed s d :
  elapsed < max_wait ->
  http w (nreq s) GET (U_status rid) = Fails d ->
  poll_loop w rid elapsed s =
  (Raise (External "requests.RequestException" d),
   {| log := Http GET (U_status rid) 10 :: log s; nreq := S (nreq s) |}).
Proof.
  intros Hlt Hr. rewrite poll_loop_equation_1.
  destruct (Z_lt_dec elapsed max_wait); [|lia].
  mred. rewrite Hr. reflexivity.
Qed.

(** The job is COMPLETE: the result is fetched and the loop is left. *)
Lemma poll_loop_complete elapsed s r fields :
  elapsed < max_wait ->
  http w (nreq s) GET (U_status rid) = Responds r ->
  ok r = true ->
  json r = Some (JObj fields) ->
  dict_lookup "status" fields = Some (JStr "COMPLETE") ->
  poll_loop w rid elapsed s =
  fetch_result w rid
    {| log := Print "   Status: {} ({}s elapsed)" [AJson (JStr "COMPLETE"); AInt elapsed]
                :: Http GET (U_status rid) 10 :: log s;
       nreq := S (nreq s) |}.
Proof.
  intros Hlt Hr Hok Hj Hst. rewrite poll_loop_equation_1.
  destruct (Z_lt_dec elapsed max_wait); [|lia].
  mred. rewrite Hr. mred. rewrite Hok. mred. rewrite Hj. mred.
  rewrite Hst. mred. reflexivity.
Qed.

(** The job is FAILED: the provider's payload is raised. *)
Lemma poll_loop_failed elapsed s r fields :
  elapsed < max_wait ->
  http w (nreq s) GET (U_status rid) = Responds r ->
  ok r = true ->
  json r = Some (JObj fields) ->
  dict_lookup "status" fields = Some (JStr "FAILED") ->
  poll_loop w rid elapsed s =
  (Raise (Exception_ "TTS job failed: {}" [JObj fields]),
   {| log := Print "   Status: {} ({}s elapsed)" [AJson (JStr "FAILED"); AInt elapsed]
               :: Http GET (U_status rid) 10 :: log s;
      nreq := S (nreq s) |}).
Proof.
  intros Hlt Hr Hok Hj Hst. rewrite poll_loop_equation_1.
  destruct (Z_lt_dec elapsed max_wait); [|lia].
  mred. rewrite Hr. mred. rewrite Hok. mred. rewrite Hj. mred.
  rewrite Hst. mred. reflexivity.
Qed.

(** A tick whose reply keeps the loop polling performs one query, one
    print and one sleep, and goes on with [elapsed + poll_interval]. *)
Lemma poll_loop_keeps elapsed s :
  elapsed < max_wait ->
  keeps_polling (http w (nreq s) GET (U_status rid)) = true ->
  exists fmt args,
    poll_loop w rid elapsed s =
    poll_loop w rid (elapsed + poll_interval)
      {| log := Sleep poll_interval :: Print fmt args
                  :: Http GET (U_status rid) 10 :: log s;
         nreq := S (nreq s) |}.
Proof.
  intros Hlt Hk. unfold keeps_polling in Hk.
  destruct (http w (nreq s) GET (U_status rid)) as [r|d] eqn:Hr; [|discriminate].
  destruct (ok r) eqn:Hok.
  - destruct (json r) as [[| | | | |fields]|] eqn:Hj; try discriminate.
    do 2 eexists. eapply poll_loop_pending; eauto.
    intros st Hst. rewrite Hst in Hk.
    apply andb_true_iff in Hk. destruct Hk as [H1 H2].
    apply negb_true_iff in H1, H2. auto.
  - do 2 eexists. eapply poll_loop_not_ok; eauto.
Qed.

(** A tick whose reply does not keep the loop polling is the last one:
    nothing is slept, no further status query is made, the result is
    fetched at most once, and the outcome is not the timeout. *)
Lemma poll_loop_stops elapsed s :
  elapsed < max_wait ->
  keeps_polling (http w (nreq s) GET (U_status rid)) = false ->
  exists tr,
    log (snd (poll_loop w rid elapsed s)) = tr ++ Http GET (U_status rid) 10 :: log s /\
    nreq (snd (poll_loop w rid elapsed s)) = (S (nreq s) + count is_http tr)%nat /\
    slept tr = 0 /\
    count is_status_query tr = 0%nat /\
    (count is_result_fetch tr <= 1)%nat /\
    worst_case tr <= 90 /\
    fst (poll_loop w rid elapsed s) <> Raise timed_out /\
    Forall (uses_handle rid) tr.
Proof.
  intros Hlt Hk. unfold keeps_polling in Hk.
  rewrite poll_loop_equation_1.
  destruct (Z_lt_dec elapsed max_wait); [|lia].
  mred.
  destruct (http w (nreq s) GET (U_status rid)) as [r|d] eqn:Hr; mred.
  2:{ exists []. log_facts. }
  destruct (ok r) eqn:Hok; [|discriminate]. mred.
  destruct (json r) as [j|] eqn:Hj; mred.
  2:{ exists []. log_facts. }
  destruct j as [| | | | |fields]; mred;
    try (exists []; log_facts).
  destruct (dict_lookup "status" fields) as [st|] eqn:Hst; [|discriminate]. mred.
  destruct (py_eq_str st "COMPLETE") eqn:Hc.
  - match goal with
    | |- context [fetch_result w rid ?s0] =>
        destruct (fetch_result_log w rid s0)
          as (tr & Hl & Hn & Hs & Hq & Hf & Hw & Ht & _ & Hh)
    end.
    cbn [log nreq] in Hl, Hn.
    exists (tr ++ [Print "   Status: {} ({}s elapsed)" [AJson st; AInt elapsed]]).
    rewrite Hl, Hn, slept_app, !count_app, worst_case_app, Hs, Hq, Hf.
    rewrite <- app_assoc. unfold count. simpl.
    repeat split; try reflexivity; try lia; [exact Ht|].
    apply Forall_app. split; [exact Hh | repeat constructor].
  - cbn [andb negb] in Hk. apply negb_false_iff in Hk. rewrite Hk.
    eexists [_]. log_facts.
Qed.

End Tick.

(** * The poll loop as a whole *)

Section Loop.

Variable w : World.
Variable rid : Json.

Lemma poll_loop_facts n :
  forall elapsed s,
    (Z.to_nat (max_wait - elapsed) <= n)%nat ->
    exists tr,
      log (snd (poll_loop w rid elapsed s)) = tr ++ log s /\
      nreq (snd (poll_loop w rid elapsed s)) = (nreq s + count is_http tr)%nat /\
      Forall (uses_handle rid) tr /\
      loop_facts elapsed (fst (poll_loop w rid elapsed s)) tr.
Proof.
  pose proof poll_interval_pos as Hpos.
  assert (Hexit : forall elapsed s,
             max_wait <= elapsed ->
             exists tr,
               log (snd (poll_loop w rid elapsed s)) = tr ++ log s /\
               nreq (snd (poll_loop w rid elapsed s)) = (nreq s + count is_http tr)%nat /\
               Forall (uses_handle rid) tr /\
               loop_facts elapsed (fst (poll_loop w rid elapsed s)) tr).
  { intros elapsed s Hge. rewrite poll_loop_exit by lia.
    exists []. split; [reflexivity|]. split; [cbn; lia|]. split; [constructor|].
    constructor; cbn [fst slept worst_case count filter List.length]; try lia.
    - split; [lia | reflexivity].
    - congruence. }
  induction n as [|n IH]; intros elapsed s Hn.
  - apply Hexit. lia.
  - destruct (Z_lt_dec elapsed max_wait) as [Hlt|Hge]; [|apply Hexit; lia].
    destruct (keeps_polling (http w (nreq s) GET (U_status rid))) eqn:Hk.
    + destruct (poll_loop_keeps w rid s Hlt Hk) as (fmt & args & Heq).
      rewrite Heq.
      match goal with
      | |- context [poll_loop w rid ?e ?s1] =>
          destruct (IH e s1) as (tr & Hl & Hq & Hh & F); [lia|]
      end.
      cbn [log nreq] in Hl, Hq.
      exists (tr ++ [Sleep poll_interval; Print fmt args; Http GET (U_status rid) 10]).
      rewrite Hl, Hq, <- app_assoc.
      split; [reflexivity|]. split; [rewrite count_app; cbn; lia|].
      split; [apply Forall_app; split; [exact Hh | repeat constructor]|].
      destruct F as [F1 F2 F3 F4 F5 F6 F7 F8].
      constructor; rewrite ?slept_app, ?count_app, ?worst_case_app;
        cbn [slept worst_case count filter List.length
               is_status_query is_result_fetch];
        try lia.
      * rewrite F2. lia.
      * intros H. specialize (F5 H). lia.
      * intros H. specialize (F6 H). lia.
    + destruct (poll_loop_stops w rid s Hlt Hk)
        as (tr & Hl & Hq & Hs & Hc & Hf & Hw & Ht & Hh).
      exists (tr ++ [Http GET (U_status rid) 10]).
      rewrite Hl, Hq, <- app_assoc.
      split; [reflexivity|]. split; [rewrite count_app; cbn; lia|].
      split; [apply Forall_app; split; [exact Hh | repeat constructor]|].
      constructor; rewrite ?slept_app, ?count_app, ?worst_case_app, ?Hs, ?Hc;
        cbn [slept worst_case count filter List.length
               is_status_query is_result_fetch];
        try lia.
      * split; [intros H; contradiction | lia].
      * intros H; contradiction.
Qed.

(** The loop times out exactly when every tick it has room for leaves it
    polling; [n] is the number of ticks that fit between [elapsed] and
    [max_wait]. *)
Lemma poll_loop_timeout_iff n :
  forall elapsed s,
    max_wait <= elapsed + Z.of_nat n * poll_interval ->
    elapsed + (Z.of_nat n - 1) * poll_interval < max_wait ->
    fst (poll_loop w rid elapsed s) = Raise timed_out <->
    (forall k, (k < n)%nat ->
               keeps_polling (http w (nreq s + k) GET (U_status rid)) = true).
Proof.
  pose proof poll_interval_pos as Hpos.
  induction n as [|n IH]; intros elapsed s Hhi Hlo.
  - rewrite poll_loop_exit by lia. split; [intros _ k Hk; lia | reflexivity].
  - assert (Hlt : elapsed < max_wait) by lia.
    destruct (keeps_polling (http w (nreq s) GET (U_status rid))) eqn:Hk.
    + destruct (poll_loop_keeps w rid s Hlt Hk) as (fmt & args & Heq).
      rewrite Heq, IH by lia. cbn [nreq].
      split; intros H k Hkn.
      * destruct k as [|k]; [rewrite Nat.add_0_r; exact Hk|].
        replace (nreq s + S k)%nat with (S (nreq s) + k)%nat by lia.
        apply H. lia.
      * replace (S (nreq s) + k)%nat with (nreq s + S k)%nat by lia.
        apply H. lia.
    + destruct (poll_loop_stops w rid s Hlt Hk) as (tr & _ & _ & _ & _ & _ & _ & Ht & _).
      split; [intros H; contradiction|].
      intros H. specialize (H 0%nat ltac:(lia)).
      rewrite Nat.add_0_r in H. congruence.
Qed.

End Loop.

(** * Bounded wait of the poll loop *)

(** C2.  The poll loop of the audio task, started with [elapsed = 0], ends
    with the timeout exactly when the seconds it slept reach [max_wait],
    which is exactly when each of the 60 ticks that fit into [max_wait]
    left it polling.  The bound is checked before every tick (at
    [max_wait <= elapsed] nothing is queried), the slept time never exceeds
    [max_wait] (so never [max_wait] plus one interval), and the loop makes
    at most 60 status queries; with the timeouts of its requests no run of
    it takes more than 810 seconds. *)
Theorem poll_loop_bounded_wait (w : World) (rid : Json) (s : TaskState) :
  (forall elapsed s', max_wait <= elapsed ->
                      poll_loop w rid elapsed s' = (Raise timed_out, s')) /\
  exists tr,
    log (snd (poll_loop w rid 0 s)) = tr ++ log s /\
    (fst (poll_loop w rid 0 s) = Raise timed_out <-> slept tr = max_wait) /\
    (fst (poll_loop w rid 0 s) = Raise timed_out <->
     forall k, (k < 60)%nat ->
               keeps_polling (http w (nreq s + k) GET (U_status rid)) = true) /\
    0 <= slept tr <= max_wait /\
    slept tr < max_wait + poll_interval /\
    (count is_status_query tr <= 60)%nat /\
    worst_case tr <= 810.
Proof.
  split; [intros; apply poll_loop_exit; assumption|].
  destruct (@poll_loop_facts w rid (Z.to_nat max_wait) 0 s) as (tr & Hl & _ & _ & F).
  { rewrite Z.sub_0_r. lia. }
  exists tr. split; [exact Hl|].
  destruct F as [F1 F2 F3 F4 F5 F6 F7 F8].
  rewrite (@poll_loop_timeout_iff w rid 60 0 s)
    by (unfold max_wait, poll_interval; lia).
  rewrite (@poll_loop_timeout_iff w rid 60 0 s) in F2, F5, F6
    by (unfold max_wait, poll_interval; lia).
  unfold max_wait, poll_interval in *.
  destruct (Z_le_dec 120 (slept tr)) as [Hge|Hlt].
  - assert (H : forall k, (k < 60)%nat ->
                keeps_polling (http w (nreq s + k) GET (U_status rid)) = true)
      by (apply F2; lia).
    specialize (F5 H). repeat split; try lia; auto.
  - assert (H : ~ forall k, (k < 60)%nat ->
                  keeps_polling (http w (nreq s + k) GET (U_status rid)) = true)
      by (intros H; apply F2 in H; lia).
    specialize (F6 H). repeat split; try lia; tauto.
Qed.

(** * Failing status queries *)

(** C3, refuted as stated: when the status endpoint cannot be reached, the
    first tick is not retried; the exception of the request ends the loop
    after a single query. *)
Lemma transport_error_not_retried :
  ~ retried_on_next_tick w_unreachable (JStr "r1") 0 init.
Proof.
  intros H. destruct (H eq_refl eq_refl) as (fmt & args & Heq).
  rewrite (@poll_loop_transport w_unreachable (JStr "r1") 0 init "connection reset")
    in Heq by reflexivity.
  rewrite (@poll_loop_transport w_unreachable (JStr "r1") (0 + poll_interval) _
             "connection reset") in Heq by reflexivity.
  discriminate Heq.
Qed.

(** C3, amended.  On a tick whose status query is answered with a status
    that is not ok, the loop keeps polling: it logs, sleeps one interval and
    goes on with [elapsed + poll_interval] and the same handle, exactly as
    after an ok answer that reports a job still running.  A status request
    that raises is not caught: its exception ends the loop at once. *)
Theorem status_query_failure (w : World) (rid : Json) (elapsed : Z) (s : TaskState) :
  elapsed < max_wait ->
  match http w (nreq s) GET (U_status rid) with
  | Responds r =>
      (ok r = false ->
       poll_loop w rid elapsed s =
       poll_loop w rid (elapsed + poll_interval)
         {| log := Sleep poll_interval
                     :: Print "   Status check failed: {}" [AInt (status_code r)]
                     :: Http GET (U_status rid) 10 :: log s;
            nreq := S (nreq s) |}) /\
      (ok r = true -> keeps_polling (Responds r) = true ->
       exists fmt args,
         poll_loop w rid elapsed s =
         poll_loop w rid (elapsed + poll_interval)
           {| log := Sleep poll_interval :: Print fmt args
                       :: Http GET (U_status rid) 10 :: log s;
              nreq := S (nreq s) |})
  | Fails d =>
      poll_loop w rid elapsed s =
      (Raise (External "requests.RequestException" d),
       {| log := Http GET (U_status rid) 10 :: log s; nreq := S (nreq s) |})
  end.
Proof.
  intros Hlt.
  destruct (http w (nreq s) GET (U_status rid)) as [r|d] eqn:Hr.
  - split.
    + intros Hok. apply poll_loop_not_ok; assumption.
    + intros _ Hk. apply poll_loop_keeps; [assumption|]. rewrite Hr. exact Hk.
  - apply poll_loop_transport; assumption.
Qed.

Lemma status_query_failure_witness :
  poll_loop w_503 (JStr "r1") 0 init =
  poll_loop w_503 (JStr "r1") (0 + poll_interval)
    {| log := [Sleep poll_interval;
               Print "   Status check failed: {}" [AInt 503];
               Http GET (U_status (JStr "r1")) 10];
       nreq := 1 |}.
Proof.
  apply (@status_query_failure w_503 (JStr "r1") 0 init); reflexivity.
Defined.

(** * The result fetch after COMPLETE *)


(** * A submit answer without request_id *)




(** * The join *)

Lemma join_for_each w s :
  for_each (as_completed w) vars0 (join_body w) s =
  (Return (joined w), {| log := join_log w ++ log s; nreq := nreq s |}).
Proof.
  unfold as_completed, join_log, joined, join_body, future_result.
  destruct s as [l n].
  destruct (video_first w); cbn [for_each]; mred;
    destruct (fst (video_run w)) as [[vp vt]|ve];
    destruct (fst (audio_run w)) as [[ap at_]|ae]; reflexivity.
Qed.

Lemma execs_join_log w : execs_newest_first (join_log w) = [].
Proof.
  unfold join_log.
  destruct (video_first w), (fst (video_run w)), (fst (audio_run w)); reflexivity.
Qed.

Lemma main_run_after_join w : main_run w = after_join w (joined w) (at_join w).
Proof.
  unfold main_run, run_parallel_generation, banner. mred.
  cbn [init log nreq].
  match goal with
  | |- context [for_each _ _ _ ?s0] => rewrite (join_for_each w s0)
  end.
  reflexivity.
Qed.

(** C4.  Whatever the two tasks do, and in whichever order they finish, the
    join ends normally with each slot filled from its own task: an
    exception of one task is caught, logged and leaves the slot of the
    other task as that task returned it; and [run_parallel_generation]
    itself never raises but goes on to [after_join] with those slots. *)
Theorem join_reaches_decision (w : World) (s : TaskState) :
  fst (for_each (as_completed w) vars0 (join_body w) s) = Return (joined w) /\
  video_path (joined w) = outcome_path (fst (video_run w)) /\
  audio_path (joined w) = outcome_path (fst (audio_run w)) /\
  main_run w = after_join w (joined w) (at_join w) /\
  exists exit, fst (main_run w) = Return exit.
Proof.
  rewrite join_for_each. repeat split; try reflexivity.
  - apply main_run_after_join.
  - rewrite main_run_after_join. unfold after_join, banner.
    destruct (if_path (video_path (joined w))); mred; [|eexists; reflexivity].
    destruct (if_path (audio_path (joined w))); mred; [|eexists; reflexivity].
    match goal with
    | |- context [combine_video_audio w ?a ?b ?c ?s0] =>
        destruct (combine_video_audio w a b c s0) as [[r|e] sm]
    end; eexists; reflexivity.
Qed.

(** * What the tasks return *)

Lemma video_run_return w a :
  fst (video_run w) = Return a -> a = (video_path_const, video_elapsed w).
Proof.
  unfold video_run, generate_video_with_modal, modal_generate_video. mred.
  destruct (modal_remote w); mred; try discriminate.
  destruct (fs_write_ok w video_path_const); mred; try discriminate.
  cbn. congruence.
Qed.

Lemma fetch_result_return w rid s a :
  fst (fetch_result w rid s) = Return a -> a = (audio_path_const, audio_elapsed w).
Proof.
  unfold fetch_result.
  repeat (unfold_m; cbn [fst snd log nreq negb]; try case_oracle).
  all: cbn; intros H; try discriminate H; congruence.
Qed.

Lemma poll_loop_return w rid n :
  forall elapsed s a,
    (Z.to_nat (max_wait - elapsed) <= n)%nat ->
    fst (poll_loop w rid elapsed s) = Return a ->
    a = (audio_path_const, audio_elapsed w).
Proof.
  pose proof poll_interval_pos as Hpos.
  induction n as [|n IH]; intros elapsed s a Hn.
  - rewrite poll_loop_exit by lia. discriminate.
  - destruct (Z_lt_dec elapsed max_wait) as [Hlt|Hge].
    2:{ rewrite poll_loop_exit by lia. discriminate. }
    destruct (keeps_polling (http w (nreq s) GET (U_status rid))) eqn:Hk.
    + destruct (poll_loop_keeps w rid s Hlt Hk) as (fmt & args & Heq).
      rewrite Heq. apply IH. lia.
    + revert Hk. unfold keeps_polling.
      rewrite poll_loop_equation_1.
      destruct (Z_lt_dec elapsed max_wait); [|lia].
      mred.
      destruct (http w (nreq s) GET (U_status rid)) as [r|d]; mred; [|discriminate].
      destruct (ok r); mred; [|discriminate].
      destruct (json r) as [[| | | | |fields]|]; mred; try discriminate.
      destruct (dict_lookup "status" fields) as [st|]; mred; [|discriminate].
      destruct (py_eq_str st "COMPLETE"); mred.
      * intros _. apply fetch_result_return.
      * destruct (py_eq_str st "FAILED"); mred; discriminate.
Qed.

Lemma audio_run_return w a :
  fst (audio_run w) = Return a -> a = (audio_path_const, audio_elapsed w).
Proof.
  unfold audio_run, generate_tts_with_gradient. mred.
  destruct (str_truthy (DO_GRADIENT_API_KEY w)); mred; [|discriminate].
  cbn [init nreq log].
  destruct (http w 0%nat POST U_invoke) as [r|d]; mred; [|discriminate].
  destruct (ok r); mred; [|discriminate].
  destruct (json r) as [[| | | | |fields]|]; mred; try discriminate.
  destruct (dict_lookup "request_id" fields); mred;
    apply (@poll_loop_return w _ _ _ _ _ (le_n _)).
Qed.

(** * The decision table *)

Lemma forallb_rev {A} (p : A -> bool) (l : list A) :
  forallb p (rev l) = forallb p l.
Proof.
  induction l as [|x l IH]; [reflexivity|].
  cbn [rev forallb]. rewrite forallb_app, IH. cbn [forallb].
  rewrite andb_true_r. apply andb_comm.
Qed.

Lemma execs_print fmt args l : execs (Print fmt args :: l) = execs l.
Proof. reflexivity. Qed.

Lemma execs_exec argv l : execs (Exec argv :: l) = execs l ++ [argv].
Proof. reflexivity. Qed.

Lemma execs_at_join w : execs (log (at_join w)) = [].
Proof.
  unfold execs, at_join. cbn [log].
  rewrite execs_newest_first_app, execs_join_log. reflexivity.
Qed.

Lemma joined_video w a :
  fst (video_run w) = Return a ->
  if_path (video_path (joined w)) = Some video_path_const /\
  video_time (joined w) = video_elapsed w.
Proof.
  intros H. unfold joined. cbn [video_path video_time].
  rewrite H. apply video_run_return in H. subst a. split; reflexivity.
Qed.

Lemma joined_audio w a :
  fst (audio_run w) = Return a ->
  if_path (audio_path (joined w)) = Some audio_path_const /\
  audio_time (joined w) = audio_elapsed w.
Proof.
  intros H. unfold joined. cbn [audio_path audio_time].
  rewrite H. apply audio_run_return in H. subst a. split; reflexivity.
Qed.

Lemma joined_no_video w e :
  fst (video_run w) = Raise e -> if_path (video_path (joined w)) = None.
Proof. intros H. unfold joined. cbn [video_path]. rewrite H. reflexivity. Qed.

Lemma joined_no_audio w e :
  fst (audio_run w) = Raise e -> if_path (audio_path (joined w)) = None.
Proof. intros H. unfold joined. cbn [audio_path]. rewrite H. reflexivity. Qed.

(** The run when both tasks returned. *)
Lemma main_run_both w a b :
  fst (video_run w) = Return a ->
  fst (audio_run w) = Return b ->
  muxed w video_path_const audio_path_const (main_run w).
Proof.
  intros Hv Ha. rewrite main_run_after_join. unfold after_join, banner.
  destruct (joined_video w Hv) as [-> _]. destruct (joined_audio w Ha) as [-> _].
  mred.
  match goal with
  | |- context [combine_video_audio w _ _ _ ?s0] => exists s0
  end.
  split.
  { unfold execs. cbn [log execs_newest_first]. apply execs_at_join. }
  match goal with
  | |- context [combine_video_audio w ?x ?y ?z ?s0] =>
      destruct (combine_video_audio w x y z s0) as [[r|e] sm]
  end; split; reflexivity.
Qed.

(** The run when only the video task returned. *)
Lemma main_run_video_only w a e :
  fst (video_run w) = Return a ->
  fst (audio_run w) = Raise e ->
  main_run w =
  (Return Exit_video_only,
   {| log := Exec ["cp"; video_path_const; output_video_only]
               :: Print "Audio generation failed - outputting video only" []
               :: log (at_join w);
      nreq := 0 |}).
Proof.
  intros Hv Ha. rewrite main_run_after_join. unfold after_join.
  destruct (joined_video w Hv) as [-> _]. rewrite (joined_no_audio w Ha).
  reflexivity.
Qed.

(** The run when the video task raised. *)
Lemma main_run_no_video w e :
  fst (video_run w) = Raise e ->
  main_run w =
  (Return Exit_no_video,
   {| log := Print "Video generation failed - cannot proceed" [] :: log (at_join w);
      nreq := 0 |}).
Proof.
  intros Hv. rewrite main_run_after_join. unfold after_join.
  rewrite (joined_no_video w Hv). reflexivity.
Qed.

(** C1.  The action after the join follows the decision table.  Both tasks
    returned: the muxer is invoked with the two artifacts.  Only the video
    task returned: the video is copied to the video-only output, nothing
    else is run, and the run ends through its video-only return.  The video
    task raised, whatever the audio task did: the run ends without running
    any command. *)
Theorem decision_table (w : World) :
  match fst (video_run w), fst (audio_run w) with
  | Return (vp, _), Return (ap, _) => muxed w vp ap (main_run w)
  | Return (vp, _), Raise _ =>
      fst (main_run w) = Return Exit_video_only /\
      execs (log (snd (main_run w))) = [["cp"; vp; output_video_only]]
  | Raise _, _ =>
      fst (main_run w) = Return Exit_no_video /\
      execs (log (snd (main_run w))) = []
  end.
Proof.
  destruct (fst (video_run w)) as [[vp vt]|ve] eqn:Hv.
  - pose proof (video_run_return w Hv) as Ev. inversion Ev; subst; clear Ev.
    destruct (fst (audio_run w)) as [[ap at_]|ae] eqn:Ha.
    + pose proof (audio_run_return w Ha) as Ea. inversion Ea; subst; clear Ea.
      exact (main_run_both w Hv Ha).
    + rewrite (main_run_video_only w Hv Ha). split; [reflexivity|].
      cbn [snd log]. rewrite execs_exec, execs_print, execs_at_join. reflexivity.
  - rewrite (main_run_no_video w Hv). cbn [fst snd log].
    rewrite execs_print, execs_at_join.
    destruct (fst (audio_run w)); split; reflexivity.
Qed.

(** * The mux step *)

Ltac unfold_proc :=
  unfold check_output, subprocess_run, float_of, setitem in *.

Ltac case_proc :=
  match goal with
  | |- context [if returncode ?r =? 0 then _ else _] => destruct (returncode r =? 0) eqn:?
  | |- context [if negb (returncode ?r =? 0) then _ else _] =>
      destruct (returncode r =? 0) eqn:?
  | |- context [match py_float ?w ?o with _ => _ end] => destruct (py_float w o) eqn:?
  end.

(** What [combine_video_audio] adds to a log: it runs only ffprobe and
    ffmpeg, prints no summary line, and raises when ffmpeg exits non-zero. *)
Lemma combine_log w v a o s :
  exists tr,
    snd (combine_video_audio w v a o s) = {| log := tr ++ log s; nreq := nreq s |} /\
    forallb is_media_tool (execs_newest_first tr) = true /\
    printed "Final output: {}" tr = false /\
    printed "Total wall time:      {:.1f}s" tr = false /\
    (returncode (proc w (ffmpeg_cmd v a o)) <> 0 ->
     exists e, fst (combine_video_audio w v a o s) = Raise e).
Proof.
  unfold combine_video_audio, probe_cmd_video.
  destruct s as [l n].
  repeat (unfold_proc; mred; cbn [list_setitem]; try case_proc).
  all: lazymatch goal with
       | |- exists tr, {| log := ?l1; nreq := _ |} = {| log := tr ++ ?base; nreq := _ |} /\ _ =>
           let p := prefix_of l1 base in exists p
       end.
  all: repeat split; try reflexivity.
  all: intros Hrc; try (eexists; reflexivity).
  all: exfalso; apply Hrc; apply Z.eqb_eq; assumption.
Qed.

(** C6.  When both tasks returned and ffmpeg exits non-zero, the run ends
    through its "Combine failed" return: the only commands it has run are
    ffprobe and ffmpeg (the video is not copied to the video-only output),
    and no final output is announced. *)
Theorem mux_failure_is_terminal (w : World) (a b : string * Time) :
  fst (video_run w) = Return a ->
  fst (audio_run w) = Return b ->
  returncode (proc w (ffmpeg_cmd video_path_const audio_path_const output_with_audio)) <> 0 ->
  fst (main_run w) = Return Exit_combine_failed /\
  forallb is_media_tool (execs (log (snd (main_run w)))) = true /\
  ~ In ["cp"; video_path_const; output_video_only] (execs (log (snd (main_run w)))) /\
  printed "Final output: {}" (log (snd (main_run w))) = false.
Proof.
  intros Hv Ha Hrc.
  assert (H : fst (main_run w) = Return Exit_combine_failed /\
              forallb is_media_tool (execs (log (snd (main_run w)))) = true /\
              printed "Final output: {}" (log (snd (main_run w))) = false).
  { rewrite main_run_after_join. unfold after_join, banner.
    destruct (joined_video w Hv) as [-> _]. destruct (joined_audio w Ha) as [-> _].
    mred.
    match goal with
    | |- context [combine_video_audio w ?x ?y ?z ?s0] =>
        destruct (combine_log w x y z s0) as (tr & Hl & Hm & Hp & _ & Hraise);
        destruct (Hraise Hrc) as [e He];
        destruct (combine_video_audio w x y z s0) as [r sm]
    end.
    cbn [fst snd] in *. subst r sm. cbn [fst snd log].
    split; [reflexivity|]. split.
    - rewrite execs_print. unfold execs. rewrite forallb_rev.
      rewrite execs_newest_first_app, forallb_app, Hm.
      cbn [execs_newest_first andb]. unfold at_join. cbn [log].
      rewrite execs_newest_first_app, execs_join_log. reflexivity.
    - cbn [printed existsb]. fold (printed "Final output: {}").
      change (existsb _ (tr ++ ?l)) with (printed "Final output: {}" (tr ++ l)).
      rewrite printed_app, Hp. cbn [orb].
      unfold printed. cbn [existsb]. unfold at_join. cbn [log].
      rewrite existsb_app. unfold join_log, failure_line.
      rewrite Hv, Ha. destruct (video_first w); reflexivity. }
  destruct H as (H1 & H2 & H3). repeat split; try assumption.
  intros Hin.
  rewrite forallb_forall in H2. apply H2 in Hin. discriminate Hin.
Qed.

Lemma mux_failure_is_terminal_witness :
  fst (main_run w_ffmpeg_fails) = Return Exit_combine_failed /\
  forallb is_media_tool (execs (log (snd (main_run w_ffmpeg_fails)))) = true /\
  ~ In ["cp"; video_path_const; output_video_only]
       (execs (log (snd (main_run w_ffmpeg_fails)))) /\
  printed "Final output: {}" (log (snd (main_run w_ffmpeg_fails))) = false.
Proof.
  apply (@mux_failure_is_terminal w_ffmpeg_fails
           (video_path_const, 40) (audio_path_const, 15));
    [reflexivity | reflexivity | vm_compute; lia].
Defined.

(** * The probe commands *)

(** The command of the second probe, as [probe_cmd[5] = audio_path] leaves
    it: the audio path replaces the option [-of], and the video path stays
    the last argument. *)
Lemma second_probe_cmd (video audio : string) :
  list_setitem (probe_cmd_video video) 5 audio =
  Some ["ffprobe"; "-v"; "error"; "-show_entries"; "format=duration";
        audio; "default=noprint_wrappers=1:nokey=1"; video].
Proof. reflexivity. Qed.

(** C5, at the input video.mp4 / audio.mp3 with tools that succeed: the
    second command that [combine_video_audio] runs is not the duration probe
    of the audio file; it still names the video file and has lost [-of].
    The ffmpeg command is as the claim says. *)
Theorem audio_probe_is_malformed :
  execs (log (snd (combine_video_audio w_ok "video.mp4" "audio.mp3" "out.mp4" init))) =
  [ ["ffprobe"; "-v"; "error"; "-show_entries"; "format=duration";
     "-of"; "default=noprint_wrappers=1:nokey=1"; "video.mp4"];
    ["ffprobe"; "-v"; "error"; "-show_entries"; "format=duration";
     "audio.mp3"; "default=noprint_wrappers=1:nokey=1"; "video.mp4"];
    ["ffmpeg"; "-y"; "-i"; "video.mp4"; "-i"; "audio.mp3";
     "-c:v"; "copy"; "-c:a"; "aac"; "-shortest";
     "-map"; "0:v:0"; "-map"; "1:a:0"; "out.mp4"] ] /\
  nth_error
    (execs (log (snd (combine_video_audio w_ok "video.mp4" "audio.mp3" "out.mp4" init)))) 1
  <> Some (probe_cmd_video "audio.mp3").
Proof.
  split; [reflexivity|].
  vm_compute. discriminate.
Qed.

(** * A missing credential *)

(** C7, refuted as stated: without the key both futures are submitted and
    the video task calls Modal. *)
Lemma missing_key_still_launches : ~ fails_fast_without_key w_no_key.
Proof.
  intros H. destruct (H eq_refl) as (_ & _ & Hlog).
  vm_compute in Hlog. discriminate Hlog.
Qed.

(** C7, amended.  Without the key both tasks are still submitted; the audio
    task raises its ValueError before it sends any request, and the run is
    decided by the video task alone: video-only output when it returned,
    no output when it raised. *)
Theorem missing_key_fails_audio_task (w : World) :
  str_truthy (DO_GRADIENT_API_KEY w) = false ->
  audio_run w =
  (Raise (ValueError "DO_GRADIENT_API_KEY environment variable required"),
   {| log := [Print "Starting TTS generation with DigitalOcean Gradient..." []];
      nreq := 0 |}) /\
  In (Submit video_future) (log (snd (main_run w))) /\
  In (Submit audio_future) (log (snd (main_run w))) /\
  fst (main_run w) =
  Return (match fst (video_run w) with
          | Return _ => Exit_video_only
          | Raise _ => Exit_no_video
          end).
Proof.
  intros Hkey.
  assert (Ha : audio_run w =
               (Raise (ValueError "DO_GRADIENT_API_KEY environment variable required"),
                {| log := [Print "Starting TTS generation with DigitalOcean Gradient..." []];
                   nreq := 0 |})).
  { unfold audio_run, generate_tts_with_gradient. mred. rewrite Hkey. reflexivity. }
  split; [exact Ha|].
  assert (Hf : fst (audio_run w) =
               Raise (ValueError "DO_GRADIENT_API_KEY environment variable required"))
    by (rewrite Ha; reflexivity).
  assert (Hin : forall l, In (Submit video_future) (l ++ log before_join) /\
                          In (Submit audio_future) (l ++ log before_join)).
  { intros l. split; apply in_or_app; right; cbn; tauto. }
  destruct (fst (video_run w)) as [a|e] eqn:Hv.
  - rewrite (main_run_video_only w Hv Hf). cbn [fst snd log at_join].
    destruct (Hin (join_log w)). repeat split; try reflexivity; do 2 right; assumption.
  - rewrite (main_run_no_video w Hv). cbn [fst snd log at_join].
    destruct (Hin (join_log w)). repeat split; try reflexivity; right; assumption.
Qed.

Lemma missing_key_fails_audio_task_witness :
  audio_run w_no_key =
  (Raise (ValueError "DO_GRADIENT_API_KEY environment variable required"),
   {| log := [Print "Starting TTS generation with DigitalOcean Gradient..." []];
      nreq := 0 |}) /\
  In (Submit video_future) (log (snd (main_run w_no_key))) /\
  In (Submit audio_future) (log (snd (main_run w_no_key))) /\
  fst (main_run w_no_key) =
  Return (match fst (video_run w_no_key) with
          | Return _ => Exit_video_only
          | Raise _ => Exit_no_video
          end).
Proof.
  apply (@missing_key_fails_audio_task w_no_key). reflexivity.
Defined.

(** * The report *)






(** * More on the result fetch *)

(** The whole of [fetch_result] when the result names an audio URL. *)
Lemma fetch_result_chosen w rid s r fields url :
  http w (nreq s) GET (U_result rid) = Responds r ->
  ok r = true ->
  json r = Some (JObj fields) ->
  chosen_audio_url fields = JStr url ->
  url <> EmptyString ->
  fetch_result w rid s =
  match http w (S (nreq s)) GET (U_audio url) with
  | Fails d =>
      (Raise (External "requests.RequestException" d),
       {| log := Http GET (U_audio url) 60
                   :: Print "   Downloading audio from: {}..." [AStr url]
                   :: Http GET (U_result rid) 30 :: log s;
          nreq := S (S (nreq s)) |})
  | Responds _ =>
      if fs_write_ok w audio_path_const then
        (Return (audio_path_const, audio_elapsed w),
         {| log := Print "   Saved to: {}" [AStr audio_path_const]
                     :: Print "TTS generated in {:.1f}s" [ATime (audio_elapsed w)]
                     :: WriteFile audio_path_const
                     :: Http GET (U_audio url) 60
                     :: Print "   Downloading audio from: {}..." [AStr url]
                     :: Http GET (U_result rid) 30 :: log s;
            nreq := S (S (nreq s)) |})
      else
        (Raise (External "OSError" audio_path_const),
         {| log := WriteFile audio_path_const
                     :: Http GET (U_audio url) 60
                     :: Print "   Downloading audio from: {}..." [AStr url]
                     :: Http GET (U_result rid) 30 :: log s;
            nreq := S (S (nreq s)) |})
  end.
Proof.
  intros Hr Hok Hj Hc Hne.
  assert (Ht : truthy (JStr url) = true).
  { cbn. destruct (String.eqb_spec url EmptyString); [contradiction | reflexivity]. }
  unfold fetch_result. mred. rewrite Hr. mred. rewrite Hok. mred. rewrite Hj. mred.
  unfold chosen_audio_url, get_or_null in Hc.
  destruct (dict_lookup "audio_url" fields) as [first|] eqn:Hfirst; mred.
  - destruct (truthy first) eqn:Hf; mred.
    + subst first. rewrite ?Ht. mred.
      destruct (http w (S (nreq s)) GET (U_audio url)); mred; [|reflexivity].
      destruct (fs_write_ok w audio_path_const); reflexivity.
    + destruct (dict_lookup "output" fields) as [[| | | | |out]|]; mred;
        try discriminate Hc.
      destruct (dict_lookup "audio_url" out) as [second|]; mred; [|discriminate Hc].
      subst second. rewrite ?Ht. mred.
      destruct (http w (S (nreq s)) GET (U_audio url)); mred; [|reflexivity].
      destruct (fs_write_ok w audio_path_const); reflexivity.
  - cbn [truthy] in Hc. change (truthy JNull) with false. mred.
    destruct (dict_lookup "output" fields) as [[| | | | |out]|]; mred;
      try discriminate Hc.
    destruct (dict_lookup "audio_url" out) as [second|]; mred; [|discriminate Hc].
    subst second. rewrite ?Ht. mred.
    destruct (http w (S (nreq s)) GET (U_audio url)); mred; [|reflexivity].
    destruct (fs_write_ok w audio_path_const); reflexivity.
Qed.

(** The status of the download is never looked at: once the result names
    an audio URL, any answer to the download, ok or not, is written to the
    audio file and the task returns. *)
Theorem download_status_not_checked
    (w : World) (rid : Json) (s : TaskState) (r d : Response)
    (fields : list (string * Json)) (url : string) :
  http w (nreq s) GET (U_result rid) = Responds r ->
  ok r = true ->
  json r = Some (JObj fields) ->
  chosen_audio_url fields = JStr url ->
  url <> EmptyString ->
  http w (S (nreq s)) GET (U_audio url) = Responds d ->
  fs_write_ok w audio_path_const = true ->
  fst (fetch_result w rid s) = Return (audio_path_const, audio_elapsed w) /\
  In (WriteFile audio_path_const) (log (snd (fetch_result w rid s))).
Proof.
  intros Hr Hok Hj Hc Hne Hd Hw.
  rewrite (fetch_result_chosen w rid s Hr Hok Hj Hc Hne), Hd, Hw.
  split; [reflexivity | cbn; tauto].
Qed.

Lemma download_status_not_checked_witness :
  fst (fetch_result w_download_404 (JStr "r1") init) = Return (audio_path_const, 15) /\
  In (WriteFile audio_path_const)
     (log (snd (fetch_result w_download_404 (JStr "r1") init))).
Proof.
  apply (@download_status_not_checked w_download_404 (JStr "r1") init
           (resp true 200 (Some (JObj [("audio_url", JStr "https://cdn/a.mp3")])))
           (resp false 404 None)
           [("audio_url", JStr "https://cdn/a.mp3")] "https://cdn/a.mp3");
    try reflexivity.
  discriminate.
Defined.

(** Which URL is downloaded: a non-empty string [audio_url] at the top level
    of the result wins, whatever [output] holds; when the top level has no
    truthy [audio_url], the one under [output] is taken.  Either way there
    is one download. *)
Theorem audio_url_precedence
    (w : World) (rid : Json) (s : TaskState) (r : Response)
    (fields : list (string * Json)) (url : string) :
  http w (nreq s) GET (U_result rid) = Responds r ->
  ok r = true ->
  json r = Some (JObj fields) ->
  url <> EmptyString ->
  dict_lookup "audio_url" fields = Some (JStr url) \/
  (truthy (get_or_null "audio_url" fields) = false /\
   exists out, dict_lookup "output" fields = Some (JObj out) /\
               dict_lookup "audio_url" out = Some (JStr url)) ->
  In (Http GET (U_audio url) 60) (log (snd (fetch_result w rid s))) /\
  count is_download (log (snd (fetch_result w rid s))) =
  S (count is_download (log s)).
Proof.
  intros Hr Hok Hj Hne Hcase.
  assert (Hc : chosen_audio_url fields = JStr url).
  { unfold chosen_audio_url, get_or_null in *.
    destruct Hcase as [H | (Hf & out & Ho & Hu)].
    - rewrite H. cbn [truthy].
      destruct (String.eqb_spec url EmptyString); [contradiction | reflexivity].
    - rewrite Hf, Ho, Hu. reflexivity. }
  rewrite (fetch_result_chosen w rid s Hr Hok Hj Hc Hne).
  destruct (http w (S (nreq s)) GET (U_audio url)).
  - destruct (fs_write_ok w audio_path_const); cbn [snd log];
      (split; [cbn; tauto | reflexivity]).
  - cbn [snd log]. split; [cbn; tauto | reflexivity].
Qed.

Lemma audio_url_precedence_witness :
  In (Http GET (U_audio "https://cdn/a.mp3") 60)
     (log (snd (fetch_result w_two_urls (JStr "r1") init))) /\
  count is_download (log (snd (fetch_result w_two_urls (JStr "r1") init))) =
  S (count is_download (log init)).
Proof.
  apply (@audio_url_precedence w_two_urls (JStr "r1") init
           (resp true 200
              (Some (JObj [("output", JObj [("audio_url", JStr "https://cdn/b.mp3")]);
                           ("audio_url", JStr "https://cdn/a.mp3")])))
           [("output", JObj [("audio_url", JStr "https://cdn/b.mp3")]);
            ("audio_url", JStr "https://cdn/a.mp3")] "https://cdn/a.mp3");
    try reflexivity.
  - discriminate.
  - left. reflexivity.
Defined.

(** * The effects of the audio task *)

Lemma fetch_result_effects w rid s :
  exists tr,
    log (snd (fetch_result w rid s)) = tr ++ log s /\
    forallb audio_effect tr = true /\
    (count is_http tr <= 2)%nat /\
    (count is_download tr <= 1)%nat /\
    (forall a, fst (fetch_result w rid s) = Return a ->
               In (WriteFile audio_path_const) tr /\
               count is_download tr = 1%nat).
Proof.
  unfold fetch_result.
  repeat (unfold_m; cbn [fst snd log nreq negb]; try case_oracle).
  all: split_log.
  all: repeat split; try reflexivity; try (unfold count; simpl; lia).
  all: try match goal with H : _ = Return _ |- _ => discriminate H end.
  all: simpl; tauto.
Qed.

Lemma forallb_audio_app l1 l2 :
  forallb audio_effect l1 = true ->
  forallb audio_effect l2 = true ->
  forallb audio_effect (l1 ++ l2) = true.
Proof. intros H1 H2. rewrite forallb_app, H1, H2. reflexivity. Qed.

Ltac effects_done :=
  repeat split; try reflexivity; try (unfold count; simpl; lia);
  try match goal with H : _ = Return _ |- _ => discriminate H end.

Lemma poll_loop_stops_effects w rid elapsed s :
  elapsed < max_wait ->
  keeps_polling (http w (nreq s) GET (U_status rid)) = false ->
  exists tr,
    log (snd (poll_loop w rid elapsed s)) = tr ++ log s /\
    forallb audio_effect tr = true /\
    (count is_http tr <= count is_status_query tr + 2)%nat /\
    (count is_download tr <= 1)%nat /\
    (forall a, fst (poll_loop w rid elapsed s) = Return a ->
               In (WriteFile audio_path_const) tr /\
               count is_download tr = 1%nat).
Proof.
  intros Hlt Hk. unfold keeps_polling in Hk.
  rewrite poll_loop_equation_1.
  destruct (Z_lt_dec elapsed max_wait); [|lia].
  mred.
  destruct (http w (nreq s) GET (U_status rid)) as [r|d] eqn:Hr; mred.
  2:{ eexists [_]. effects_done. }
  destruct (ok r) eqn:Hok; [|discriminate]. mred.
  destruct (json r) as [j|] eqn:Hj; mred.
  2:{ eexists [_]. effects_done. }
  destruct j as [| | | | |fields]; mred;
    try (eexists [_]; solve [effects_done]).
  destruct (dict_lookup "status" fields) as [st|] eqn:Hst; [|discriminate]. mred.
  destruct (py_eq_str st "COMPLETE") eqn:Hc.
  - match goal with
    | |- context [fetch_result w rid ?s0] =>
        destruct (fetch_result_effects w rid s0) as (tr & Hl & He & Hh & Hd & Hret)
    end.
    cbn [log] in Hl.
    exists (tr ++ [Print "   Status: {} ({}s elapsed)" [AJson st; AInt elapsed];
                   Http GET (U_status rid) 10]).
    rewrite Hl, <- app_assoc. split; [reflexivity|].
    split; [apply forallb_audio_app; [exact He | reflexivity]|].
    rewrite !count_app.
    split; [unfold count at 2 4; simpl; lia|].
    split; [unfold count at 2; simpl; lia|].
    intros a Ha. destruct (Hret a Ha) as [Hin Hone].
    split; [apply in_or_app; left; exact Hin|].
    rewrite Hone. reflexivity.
  - cbn [andb negb] in Hk. apply negb_false_iff in Hk. rewrite Hk.
    eexists [_; _]. effects_done.
Qed.

Lemma poll_loop_effects w rid n :
  forall elapsed s,
    (Z.to_nat (max_wait - elapsed) <= n)%nat ->
    exists tr,
      log (snd (poll_loop w rid elapsed s)) = tr ++ log s /\
      forallb audio_effect tr = true /\
      (count is_http tr <= count is_status_query tr + 2)%nat /\
      (count is_download tr <= 1)%nat /\
      (forall a, fst (poll_loop w rid elapsed s) = Return a ->
                 In (WriteFile audio_path_const) tr /\
                 count is_download tr = 1%nat).
Proof.
  pose proof poll_interval_pos as Hpos.
  assert (Hexit : forall elapsed s,
             max_wait <= elapsed ->
             exists tr,
               log (snd (poll_loop w rid elapsed s)) = tr ++ log s /\
               forallb audio_effect tr = true /\
               (count is_http tr <= count is_status_query tr + 2)%nat /\
               (count is_download tr <= 1)%nat /\
               (forall a, fst (poll_loop w rid elapsed s) = Return a ->
                          In (WriteFile audio_path_const) tr /\
                          count is_download tr = 1%nat)).
  { intros elapsed s Hge. rewrite poll_loop_exit by lia.
    exists []. effects_done. }
  induction n as [|n IH]; intros elapsed s Hn.
  - apply Hexit. lia.
  - destruct (Z_lt_dec elapsed max_wait) as [Hlt|Hge]; [|apply Hexit; lia].
    destruct (keeps_polling (http w (nreq s) GET (U_status rid))) eqn:Hk.
    + destruct (poll_loop_keeps w rid s Hlt Hk) as (fmt & args & Heq).
      rewrite Heq.
      match goal with
      | |- context [poll_loop w rid ?e ?s1] =>
          destruct (IH e s1) as (tr & Hl & He & Hh & Hd & Hret); [lia|]
      end.
      cbn [log] in Hl.
      exists (tr ++ [Sleep poll_interval; Print fmt args; Http GET (U_status rid) 10]).
      rewrite Hl, <- app_assoc. split; [reflexivity|].
      split; [apply forallb_audio_app; [exact He | reflexivity]|].
      rewrite !count_app.
      split; [unfold count at 2 4; simpl; lia|].
      split; [unfold count at 2; simpl; lia|].
      intros a Ha. destruct (Hret a Ha) as [Hin Hone].
      split; [apply in_or_app; left; exact Hin|].
      rewrite Hone. reflexivity.
    + apply poll_loop_stops_effects; assumption.
Qed.

(** * Several ticks *)

(** [k] ticks that all leave the loop polling: [k] queries, [k] sleeps, and
    the loop goes on [k] intervals later. *)
Lemma poll_loop_skip w rid k :
  forall elapsed s,
    (forall j, (j < k)%nat ->
               keeps_polling (http w (nreq s + j) GET (U_status rid)) = true) ->
    elapsed + Z.of_nat k * poll_interval <= max_wait ->
    exists tr,
      poll_loop w rid elapsed s =
      poll_loop w rid (elapsed + Z.of_nat k * poll_interval)
        {| log := tr ++ log s; nreq := nreq s + k |} /\
      slept tr = Z.of_nat k * poll_interval /\
      count is_status_query tr = k /\
      count is_http tr = k /\
      count is_result_fetch tr = 0%nat /\
      count is_download tr = 0%nat.
Proof.
  pose proof poll_interval_pos as Hpos.
  induction k as [|k IH]; intros elapsed s Hk Hle.
  - exists []. cbn [app]. rewrite Nat.add_0_r, Z.mul_0_l, Z.add_0_r.
    destruct s; repeat split; reflexivity.
  - assert (Hlt : elapsed < max_wait) by lia.
    assert (H0 : keeps_polling (http w (nreq s) GET (U_status rid)) = true).
    { rewrite <- (Nat.add_0_r (nreq s)). apply Hk. lia. }
    destruct (poll_loop_keeps w rid s Hlt H0) as (fmt & args & Heq).
    rewrite Heq.
    match goal with
    | |- context [poll_loop w rid ?e ?s1] =>
        destruct (IH e s1) as (tr & Hl & Hs & Hq & Hh & Hf & Hd)
    end.
    { intros j Hj. cbn [nreq].
      replace (S (nreq s) + j)%nat with (nreq s + S j)%nat by lia.
      apply Hk. lia. }
    { lia. }
    cbn [log nreq] in Hl.
    exists (tr ++ [Sleep poll_interval; Print fmt args; Http GET (U_status rid) 10]).
    rewrite Hl, <- app_assoc.
    replace (elapsed + poll_interval + Z.of_nat k * poll_interval)
      with (elapsed + Z.of_nat (S k) * poll_interval) by lia.
    replace (S (nreq s) + k)%nat with (nreq s + S k)%nat by lia.
    split; [reflexivity|].
    rewrite slept_app, !count_app, Hs, Hq, Hh, Hf, Hd.
    cbn [slept]. unfold count. cbn [filter is_status_query is_http is_result_fetch
                                     is_download List.length].
    repeat split; lia.
Qed.

(** When the job runs for [k] ticks and then reports FAILED, the loop
    raises the provider's payload after [k] sleeps and [k + 1] status
    queries; it fetches no result and downloads nothing. *)
Theorem job_failure_ends_polling
    (w : World) (rid : Json) (s : TaskState) (k : nat)
    (r : Response) (fields : list (string * Json)) :
  (forall j, (j < k)%nat ->
             keeps_polling (http w (nreq s + j) GET (U_status rid)) = true) ->
  Z.of_nat k * poll_interval < max_wait ->
  http w (nreq s + k) GET (U_status rid) = Responds r ->
  ok r = true ->
  json r = Some (JObj fields) ->
  dict_lookup "status" fields = Some (JStr "FAILED") ->
  fst (poll_loop w rid 0 s) = Raise (Exception_ "TTS job failed: {}" [JObj fields]) /\
  exists tr,
    log (snd (poll_loop w rid 0 s)) = tr ++ log s /\
    slept tr = Z.of_nat k * poll_interval /\
    count is_status_query tr = S k /\
    count is_result_fetch tr = 0%nat /\
    count is_download tr = 0%nat.
Proof.
  intros Hk Hlt Hr Hok Hj Hst.
  destruct (@poll_loop_skip w rid k 0 s Hk) as (tr & Heq & Hs & Hq & _ & Hf & Hd);
    [lia|].
  rewrite Heq.
  rewrite (@poll_loop_failed w rid _ _ r fields) by (cbn [nreq]; auto; lia).
  cbn [fst snd log]. split; [reflexivity|].
  exists (Print "   Status: {} ({}s elapsed)"
            [AJson (JStr "FAILED"); AInt (0 + Z.of_nat k * poll_interval)]
          :: Http GET (U_status rid) 10 :: tr).
  split; [reflexivity|].
  cbn [slept]. unfold count in *.
  cbn [filter is_status_query is_result_fetch is_download List.length].
  repeat split; lia.
Qed.

Lemma job_failure_ends_polling_witness :
  fst (poll_loop w_job_fails (JStr "r1") 0
         {| log := []; nreq := 1 |}) =
  Raise (Exception_ "TTS job failed: {}"
           [JObj [("status", JStr "FAILED"); ("error", JStr "quota")]]) /\
  exists tr,
    log (snd (poll_loop w_job_fails (JStr "r1") 0 {| log := []; nreq := 1 |})) = tr ++ [] /\
    slept tr = Z.of_nat 2 * poll_interval /\
    count is_status_query tr = 3%nat /\
    count is_result_fetch tr = 0%nat /\
    count is_download tr = 0%nat.
Proof.
  apply (@job_failure_ends_polling w_job_fails (JStr "r1")
           {| log := []; nreq := 1 |} 2
           (resp true 200 (Some (JObj [("status", JStr "FAILED"); ("error", JStr "quota")])))
           [("status", JStr "FAILED"); ("error", JStr "quota")]);
    try reflexivity.
  intros j Hj. destruct j as [|[|j]]; [reflexivity | reflexivity | lia].
Defined.

(** * The audio task as a whole *)

(** The state of the audio task when it enters the poll loop. *)
Lemma audio_task_enters_loop w s r fields :
  str_truthy (DO_GRADIENT_API_KEY w) = true ->
  http w (nreq s) POST U_invoke = Responds r ->
  ok r = true ->
  json r = Some (JObj fields) ->
  generate_tts_with_gradient w s =
  poll_loop w (get_or_null "request_id" fields) 0
    {| log := Print "   Job started: {}" [AJson (get_or_null "request_id" fields)]
                :: Http POST U_invoke 30
                :: Print "   Sending TTS request to {}/v1/async-invoke..." []
                :: Print "Starting TTS generation with DigitalOcean Gradient..." []
                :: log s;
       nreq := S (nreq s) |}.
Proof.
  intros Hkey Hr Hok Hj.
  unfold generate_tts_with_gradient, get_or_null. mred.
  rewrite Hkey. mred. rewrite Hr. mred. rewrite Hok. mred. rewrite Hj. mred.
  destruct (dict_lookup "request_id" fields); reflexivity.
Qed.

(** Without an accepted submit the audio task raises at once: it has sent
    at most the one POST, has not slept and has made no status query; a
    POST answered not ok is reported with its status code. *)
Theorem no_polling_without_accepted_submit (w : World) (s : TaskState) :
  submit_accepted w (nreq s) = false ->
  exists e tr,
    fst (generate_tts_with_gradient w s) = Raise e /\
    log (snd (generate_tts_with_gradient w s)) = tr ++ log s /\
    (count is_http tr <= 1)%nat /\
    count is_status_query tr = 0%nat /\
    slept tr = 0 /\
    forallb audio_effect tr = true /\
    (str_truthy (DO_GRADIENT_API_KEY w) = false -> count is_http tr = 0%nat) /\
    (forall r, str_truthy (DO_GRADIENT_API_KEY w) = true ->
               http w (nreq s) POST U_invoke = Responds r -> ok r = false ->
               e = Exception_ "TTS request failed: {}" [JNum (status_code r)]).
Proof.
  unfold submit_accepted, generate_tts_with_gradient. intros H. destruct s as [l n].
  cbn [nreq log] in *. mred.
  destruct (str_truthy (DO_GRADIENT_API_KEY w)) eqn:Hkey; mred.
  2:{ eexists. eexists [_].
      split; [reflexivity|]. split; [reflexivity|].
      repeat split; try reflexivity; try (unfold count; simpl; lia); discriminate. }
  cbn [andb] in H.
  destruct (http w n POST U_invoke) as [r|d] eqn:Hr; mred.
  2:{ eexists. eexists [_; _; _].
      split; [reflexivity|]. split; [reflexivity|].
      repeat split; try reflexivity; try (unfold count; simpl; lia); discriminate. }
  destruct (ok r) eqn:Hok; mred.
  2:{ eexists. eexists [_; _; _; _].
      split; [reflexivity|]. split; [reflexivity|].
      repeat split; try reflexivity; try (unfold count; simpl; lia); try discriminate.
      intros r' _ E _. inversion E. reflexivity. }
  destruct (json r) as [[| | | | |fields]|] eqn:Hj; mred; try discriminate H.
  all: eexists; eexists [_; _; _];
    (split; [reflexivity|]); (split; [reflexivity|]).
  all: repeat split; try reflexivity; try (unfold count; simpl; lia); try discriminate.
  all: intros r' _ E Hn; inversion E; subst; congruence.
Qed.

Lemma no_polling_without_accepted_submit_witness :
  exists e tr,
    fst (generate_tts_with_gradient w_unauthorized init) = Raise e /\
    log (snd (generate_tts_with_gradient w_unauthorized init)) = tr ++ log init /\
    (count is_http tr <= 1)%nat /\
    count is_status_query tr = 0%nat /\
    slept tr = 0 /\
    forallb audio_effect tr = true /\
    (str_truthy (DO_GRADIENT_API_KEY w_unauthorized) = false ->
     count is_http tr = 0%nat) /\
    (forall r, str_truthy (DO_GRADIENT_API_KEY w_unauthorized) = true ->
               http w_unauthorized (nreq init) POST U_invoke = Responds r ->
               ok r = false ->
               e = Exception_ "TTS request failed: {}" [JNum (status_code r)]).
Proof.
  apply (@no_polling_without_accepted_submit w_unauthorized init). reflexivity.
Defined.

(** What the audio task adds to a log, from any state. *)
Lemma audio_task_trace (w : World) (s : TaskState) :
  exists tr,
    log (snd (generate_tts_with_gradient w s)) = tr ++ log s /\
    forallb audio_effect tr = true /\
    (count is_http tr <= 63)%nat /\
    (count is_status_query tr <= 60)%nat /\
    0 <= slept tr <= max_wait /\
    worst_case tr <= 840 /\
    (forall a, fst (generate_tts_with_gradient w s) = Return a ->
               a = (audio_path_const, audio_elapsed w) /\
               In (WriteFile audio_path_const) tr /\
               count is_download tr = 1%nat).
Proof.
  destruct (str_truthy (DO_GRADIENT_API_KEY w)) eqn:Hkey.
  2:{ unfold generate_tts_with_gradient. mred. rewrite Hkey. mred.
      eexists [_]. split; [reflexivity|].
      repeat split; try reflexivity; try (unfold count; simpl; lia);
        try (cbn; unfold max_wait; lia); discriminate. }
  destruct (http w (nreq s) POST U_invoke) as [r|d] eqn:Hr.
  2:{ unfold generate_tts_with_gradient. mred. rewrite Hkey. mred. rewrite Hr. mred.
      eexists [_; _; _]. split; [reflexivity|].
      repeat split; try reflexivity; try (unfold count; simpl; lia);
        try (cbn; unfold max_wait; lia); discriminate. }
  destruct (ok r) eqn:Hok.
  2:{ unfold generate_tts_with_gradient. mred. rewrite Hkey. mred. rewrite Hr. mred.
      rewrite Hok. mred.
      eexists [_; _; _; _]. split; [reflexivity|].
      repeat split; try reflexivity; try (unfold count; simpl; lia);
        try (cbn; unfold max_wait; lia); discriminate. }
  destruct (json r) as [j|] eqn:Hj.
  2:{ unfold generate_tts_with_gradient. mred. rewrite Hkey. mred. rewrite Hr. mred.
      rewrite Hok. mred. rewrite Hj. mred.
      eexists [_; _; _]. split; [reflexivity|].
      repeat split; try reflexivity; try (unfold count; simpl; lia);
        try (cbn; unfold max_wait; lia); discriminate. }
  assert (Hobj : (exists fields, j = JObj fields) \/
                 fst (dict_get "request_id" j s) = Raise AttributeError).
  { destruct j; try (right; reflexivity). left. eexists. reflexivity. }
  destruct Hobj as [[fields ->]|Hbad].
  2:{ unfold generate_tts_with_gradient. mred. rewrite Hkey. mred. rewrite Hr. mred.
      rewrite Hok. mred. rewrite Hj. mred.
      destruct j as [| | | | |fields]; mred.
      6:{ exfalso. cbn in Hbad.
          destruct (dict_lookup "request_id" fields); discriminate Hbad. }
      all: eexists [_; _; _]; (split; [reflexivity|]).
      all: repeat split; try reflexivity; try (unfold count; simpl; lia);
        try (cbn; unfold max_wait; lia); discriminate. }
  rewrite (audio_task_enters_loop w s Hkey Hr Hok Hj).
  set (rid := get_or_null "request_id" fields).
  match goal with
  | |- context [poll_loop w rid 0 ?s1] => set (s1' := s1)
  end.
  destruct (@poll_loop_effects w rid (Z.to_nat max_wait) 0 s1')
    as (tr & Hl & He & Hh & Hd & Hret); [rewrite Z.sub_0_r; lia|].
  destruct (@poll_loop_facts w rid (Z.to_nat max_wait) 0 s1')
    as (tr' & Hl' & _ & _ & F); [rewrite Z.sub_0_r; lia|].
  assert (tr' = tr) as -> by (rewrite Hl in Hl'; apply app_inv_tail in Hl'; congruence).
  destruct F as [F1 F2 F3 F4 F5 F6 F7 F8].
  assert (Hs : slept tr <= max_wait /\ (count is_status_query tr <= 60)%nat).
  { unfold max_wait, poll_interval in *.
    destruct (Z_lt_dec (slept tr) 120) as [Hlt|Hge].
    - assert (Hne : fst (poll_loop w rid 0 s1') <> Raise timed_out).
      { intros E. apply F2 in E. lia. }
      specialize (F6 Hne). lia.
    - assert (E : fst (poll_loop w rid 0 s1') = Raise timed_out) by (apply F2; lia).
      specialize (F5 E). rewrite Z.max_r in F4 by lia. lia. }
  destruct Hs as [Hs Hq].
  exists (tr ++ [Print "   Job started: {}" [AJson rid];
                 Http POST U_invoke 30;
                 Print "   Sending TTS request to {}/v1/async-invoke..." [];
                 Print "Starting TTS generation with DigitalOcean Gradient..." []]).
  rewrite Hl. subst s1'. cbn [log]. rewrite <- app_assoc.
  split; [reflexivity|].
  split; [apply forallb_audio_app; [exact He|reflexivity]|].
  rewrite !count_app, slept_app, worst_case_app.
  split; [unfold count at 2; simpl; lia|].
  split; [unfold count at 2; simpl; lia|].
  split; [cbn [slept]; simpl; lia|].
  split; [unfold max_wait, poll_interval in *; simpl; lia|].
  intros a Ha. destruct (Hret a Ha) as [Hin Hone].
  split; [exact (@poll_loop_return w rid _ 0 _ a (le_n _) Ha)|].
  split; [apply in_or_app; left; exact Hin|].
  rewrite Hone. reflexivity.
Qed.

(** Whatever the provider answers, the audio task ends, and within fixed
    bounds: it only prints, sends its four kinds of request, sleeps one
    interval at a time and writes the audio file; it sends at most 63
    requests, 60 of them status queries; it sleeps at most [max_wait]
    seconds; with the timeouts of its requests it takes at most 840
    seconds.  When it returns, it returns the audio path and its time, after
    exactly one download and the write of that file. *)
Theorem audio_task_bounded (w : World) (s : TaskState) :
  exists tr,
    log (snd (generate_tts_with_gradient w s)) = tr ++ log s /\
    forallb audio_effect tr = true /\
    (count is_http tr <= 63)%nat /\
    (count is_status_query tr <= 60)%nat /\
    0 <= slept tr <= max_wait /\
    worst_case tr <= 840 /\
    (forall a, fst (generate_tts_with_gradient w s) = Return a ->
               a = (audio_path_const, audio_elapsed w) /\
               In (WriteFile audio_path_const) tr /\
               count is_download tr = 1%nat).
Proof.
  destruct (audio_task_trace w s) as (tr & Hl & He & Hh & Hq & Hs & Hw & Hret).
  exists tr.
  split; [exact Hl|]. split; [exact He|]. split; [exact Hh|].
  split; [exact Hq|]. split; [exact Hs|]. split; [exact Hw|].
  intros a Ha. exact (Hret a Ha).
Qed.

(** When the task succeeds: the key is set, the submit is accepted, the
    status queries leave the loop polling for [k] ticks (fewer than the
    bound allows) and then report COMPLETE, the result names an audio URL,
    the download is answered and the file can be written.  Then the task
    returns the audio path and its time, after [k + 4] requests and
    [k] intervals of sleep. *)
Theorem audio_task_succeeds
    (w : World) (s : TaskState) (k : nat) (r0 rst rres d : Response)
    (job st fields : list (string * Json)) (url : string) :
  let rid := get_or_null "request_id" job in
  str_truthy (DO_GRADIENT_API_KEY w) = true ->
  http w (nreq s) POST U_invoke = Responds r0 ->
  ok r0 = true -> json r0 = Some (JObj job) ->
  (forall j, (j < k)%nat ->
             keeps_polling (http w (S (nreq s) + j) GET (U_status rid)) = true) ->
  Z.of_nat k * poll_interval < max_wait ->
  http w (S (nreq s) + k) GET (U_status rid) = Responds rst ->
  ok rst = true -> json rst = Some (JObj st) ->
  dict_lookup "status" st = Some (JStr "COMPLETE") ->
  http w (S (S (nreq s) + k)) GET (U_result rid) = Responds rres ->
  ok rres = true -> json rres = Some (JObj fields) ->
  chosen_audio_url fields = JStr url -> url <> EmptyString ->
  http w (S (S (S (nreq s) + k))) GET (U_audio url) = Responds d ->
  fs_write_ok w audio_path_const = true ->
  fst (generate_tts_with_gradient w s) = Return (audio_path_const, audio_elapsed w) /\
  nreq (snd (generate_tts_with_gradient w s)) = (nreq s + k + 4)%nat /\
  exists tr,
    log (snd (generate_tts_with_gradient w s)) = tr ++ log s /\
    slept tr = Z.of_nat k * poll_interval /\
    count is_status_query tr = S k /\
    count is_http tr = (k + 4)%nat /\
    In (Http GET (U_audio url) 60) tr /\
    In (WriteFile audio_path_const) tr.
Proof.
  intros rid Hkey Hr0 Hok0 Hj0 Hk Hlt Hst Hokst Hjst Hc Hres Hokres Hjres Hurl Hne Hd Hw.
  rewrite (audio_task_enters_loop w s Hkey Hr0 Hok0 Hj0). fold rid.
  match goal with
  | |- context [poll_loop w rid 0 ?s1] => set (s1' := s1)
  end.
  destruct (@poll_loop_skip w rid k 0 s1' Hk) as (tr & Heq & Hs & Hq & Hh & _ & _);
    [lia|].
  rewrite Heq.
  rewrite (@poll_loop_complete w rid _ _ rst st) by (cbn [nreq]; auto; lia).
  match goal with
  | |- context [fetch_result w rid ?s2] => set (s2' := s2)
  end.
  rewrite (@fetch_result_chosen w rid s2' rres fields url Hres Hokres Hjres Hurl Hne).
  subst s2'. cbn [nreq]. subst s1'. cbn [nreq log]. rewrite Hd, Hw.
  cbn [fst snd log nreq].
  split; [reflexivity|]. split; [lia|].
  eexists (_ :: _ :: _ :: _ :: _ :: _ :: _ :: _ :: tr ++ [_; _; _; _]).
  split; [cbn [app]; rewrite <- app_assoc; reflexivity|].
  cbn [slept]. rewrite slept_app. unfold count. cbn [filter is_status_query is_http List.length].
  rewrite !filter_app, !length_app. fold (count is_status_query tr). fold (count is_http tr).
  rewrite Hs, Hq, Hh.
  split; [simpl; lia|]. split; [simpl; lia|]. split; [simpl; lia|].
  split; cbn; tauto.
Qed.

Lemma audio_task_succeeds_witness :
  fst (generate_tts_with_gradient w_ok init) = Return (audio_path_const, 15) /\
  nreq (snd (generate_tts_with_gradient w_ok init)) = 6%nat /\
  exists tr,
    log (snd (generate_tts_with_gradient w_ok init)) = tr ++ log init /\
    slept tr = Z.of_nat 2 * poll_interval /\
    count is_status_query tr = 3%nat /\
    count is_http tr = 6%nat /\
    In (Http GET (U_audio "https://cdn/a.mp3") 60) tr /\
    In (WriteFile audio_path_const) tr.
Proof.
  apply (@audio_task_succeeds w_ok init 2
           (resp true 200 (Some (JObj [("request_id", JStr "r1")])))
           (resp true 200 (Some (JObj [("status", JStr "COMPLETE")])))
           (resp true 200
              (Some (JObj [("output", JObj [("audio_url", JStr "https://cdn/a.mp3")])])))
           (resp true 200 None)
           [("request_id", JStr "r1")]
           [("status", JStr "COMPLETE")]
           [("output", JObj [("audio_url", JStr "https://cdn/a.mp3")])]
           "https://cdn/a.mp3");
    try reflexivity.
  - intros j Hj. destruct j as [|[|j]]; [reflexivity | reflexivity | lia].
  - discriminate.
Defined.

(** * The video task *)

(** The video task returns exactly when the remote call returned bytes and
    the video file could be written, and then it returns the video path and
    its time.  Every failure is logged once, as the last line, and the same
    exception is raised again.  The remote function is called once unless
    the import failed, with 48 frames at 848x480 and 50 steps; the file is
    written only after the call returned; no HTTP request is made. *)
Theorem video_task_outcome (w : World) (s : TaskState) :
  exists tr,
    snd (generate_video_with_modal w s) = {| log := tr ++ log s; nreq := nreq s |} /\
    (fst (generate_video_with_modal w s) = Return (video_path_const, video_elapsed w) <->
     (exists b, modal_remote w = ModalBytes b) /\ fs_write_ok w video_path_const = true) /\
    (forall a, fst (generate_video_with_modal w s) = Return a ->
               a = (video_path_const, video_elapsed w) /\
               printed "Video generation failed: {}" tr = false) /\
    (forall e, fst (generate_video_with_modal w s) = Raise e ->
               hd_error tr = Some (Print "Video generation failed: {}" [AExn e]) /\
               printed "   Saved to: {}" tr = false) /\
    count is_modal_call tr =
      (match modal_remote w with ModalImportError => 0 | _ => 1 end)%nat /\
    (forall e, is_modal_call e = true -> In e tr -> e = ModalRemote 48 848 480 50) /\
    count is_write tr =
      (match modal_remote w with ModalBytes _ => 1 | _ => 0 end)%nat /\
    count is_http tr = 0%nat.
Proof.
  unfold generate_video_with_modal, modal_generate_video. destruct s as [l n]. mred.
  destruct (modal_remote w) as [b| |d] eqn:Hm; mred.
  - destruct (fs_write_ok w video_path_const) eqn:Hw; mred.
    + eexists [_; _; _; _; _]. split; [reflexivity|].
      split; [split; [intros _; split; [eexists|]; reflexivity | reflexivity]|].
      split; [intros a Ha; inversion Ha; split; reflexivity|].
      split; [discriminate|].
      split; [reflexivity|].
      split; [|split; reflexivity].
      intros e He Hin. cbn in Hin.
      repeat (destruct Hin as [<-|Hin]; try discriminate He; try reflexivity).
      destruct Hin.
    + eexists [_; _; _; _; _]. split; [reflexivity|].
      split; [split; [discriminate | intros [_ ?]; discriminate]|].
      split; [discriminate|].
      split; [intros e He; inversion He; split; reflexivity|].
      split; [reflexivity|].
      split; [|split; reflexivity].
      intros e He Hin. cbn in Hin.
      repeat (destruct Hin as [<-|Hin]; try discriminate He; try reflexivity).
      destruct Hin.
  - eexists [_; _]. split; [reflexivity|].
    split; [split; [discriminate | intros [[b Hb] _]; discriminate]|].
    split; [discriminate|].
    split; [intros e He; inversion He; split; reflexivity|].
    split; [reflexivity|].
    split; [|split; reflexivity].
    intros e He Hin. cbn in Hin.
    repeat (destruct Hin as [<-|Hin]; try discriminate He; try reflexivity).
    destruct Hin.
  - eexists [_; _; _]. split; [reflexivity|].
    split; [split; [discriminate | intros [[b Hb] _]; discriminate]|].
    split; [discriminate|].
    split; [intros e He; inversion He; split; reflexivity|].
    split; [reflexivity|].
    split; [|split; reflexivity].
    intros e He Hin. cbn in Hin.
    repeat (destruct Hin as [<-|Hin]; try discriminate He; try reflexivity).
    destruct Hin.
Qed.

(** * The mux step as a whole *)

(** [combine_video_audio] runs its commands in a fixed order and stops at
    the first that fails: the probe of the video, the second probe as the
    code builds it, then ffmpeg.  It returns exactly when both probes get
    through and ffmpeg exits 0, and then it returns the output path it was
    given; so a failing probe keeps ffmpeg from running, although the
    ffmpeg command does not use the probed durations. *)
Theorem combine_outcome (w : World) (v a o : string) (s : TaskState) :
  let p1 := probe_cmd_video v in
  let p2 := probe_cmd_after_setitem v a in
  let c := ffmpeg_cmd v a o in
  exists tr,
    snd (combine_video_audio w v a o s) = {| log := tr ++ log s; nreq := nreq s |} /\
    execs tr = (if probe_succeeds w p1
                then if probe_succeeds w p2 then [p1; p2; c] else [p1; p2]
                else [p1]) /\
    (fst (combine_video_audio w v a o s) = Return (o, combine_elapsed w) <->
     probe_succeeds w p1 && probe_succeeds w p2 && (returncode (proc w c) =? 0) = true) /\
    (forall r, fst (combine_video_audio w v a o s) = Return r ->
               r = (o, combine_elapsed w)).
Proof.
  unfold combine_video_audio, probe_succeeds, probe_cmd_after_setitem, ffmpeg_cmd,
    probe_cmd_video.
  cbn [list_setitem]. cbv zeta.
  destruct s as [l n].
  repeat (unfold_proc; mred; cbn [list_setitem]; try case_proc).
  all: lazymatch goal with
       | |- exists tr, {| log := ?l1; nreq := _ |} = {| log := tr ++ ?base; nreq := _ |} /\ _ =>
           let p := prefix_of l1 base in exists p
       end.
  all: split; [reflexivity|].
  all: split; [reflexivity|].
  all: split; [split; intros H; try discriminate H; reflexivity|].
  all: intros r H; try discriminate H; inversion H; reflexivity.
Qed.

(** * The summary *)

Lemma combine_returns w v a o s :
  (forall r, fst (combine_video_audio w v a o s) = Return r ->
             r = (o, combine_elapsed w) /\ mux_succeeds w v a o = true) /\
  (forall e, fst (combine_video_audio w v a o s) = Raise e ->
             mux_succeeds w v a o = false).
Proof.
  unfold combine_video_audio, mux_succeeds, probe_succeeds, probe_cmd_after_setitem,
    ffmpeg_cmd, probe_cmd_video.
  cbn [list_setitem].
  destruct s as [l n].
  repeat (unfold_proc; mred; cbn [list_setitem]; try case_proc).
  all: split; intros r H; try discriminate H; try reflexivity.
  all: inversion H; split; reflexivity.
Qed.

(** The run reaches its summary exactly when the video task returned, the
    audio task returned and the mux step got through.  The summary then
    shows the time of each task under its own name, in whichever order the
    tasks finished, the mux time, and as time saved the distance between the
    two task times. *)
Theorem summary_when_all_succeed (w : World) :
  (fst (main_run w) = Return Exit_summary <->
   returned (fst (video_run w)) && returned (fst (audio_run w)) &&
   mux_succeeds w video_path_const audio_path_const output_with_audio = true) /\
  (fst (main_run w) = Return Exit_summary ->
   In (Print "Video generation time: {:.1f}s" [ATime (video_elapsed w)])
      (log (snd (main_run w))) /\
   In (Print "Audio generation time: {:.1f}s" [ATime (audio_elapsed w)])
      (log (snd (main_run w))) /\
   In (Print "Muxing time:          {:.1f}s" [ATime (combine_elapsed w)])
      (log (snd (main_run w))) /\
   In (Print "Time saved by parallel: ~{:.1f}s"
         [ATime (Z.abs (video_elapsed w - audio_elapsed w))])
      (log (snd (main_run w)))).
Proof.
  rewrite main_run_after_join. unfold after_join, banner.
  destruct (fst (video_run w)) as [a|e] eqn:Hv.
  2:{ rewrite (joined_no_video w Hv). cbn. split; [split|]; discriminate. }
  destruct (joined_video w Hv) as [-> Hvt].
  destruct (fst (audio_run w)) as [b|e] eqn:Ha.
  2:{ rewrite (joined_no_audio w Ha). cbn. split; [split|]; discriminate. }
  destruct (joined_audio w Ha) as [-> Hat].
  cbn [returned andb]. mred.
  match goal with
  | |- context [combine_video_audio w ?x ?y ?z ?s0] =>
      destruct (combine_returns w x y z s0) as [Hret Hraise];
      destruct (combine_video_audio w x y z s0) as [[r|e] sm]
  end; cbn [fst snd] in *.
  - destruct (Hret r eq_refl) as [-> ->]. cbn [fst snd log].
    split; [split; reflexivity|]. intros _.
    rewrite Hvt, Hat.
    replace (Z.max (video_elapsed w) (audio_elapsed w)
             - Z.min (video_elapsed w) (audio_elapsed w))
      with (Z.abs (video_elapsed w - audio_elapsed w)) by lia.
    repeat split; cbn [In]; tauto.
  - rewrite (Hraise e eq_refl). cbn. split; [split|]; discriminate.
Qed.

(** * The TTS-only test and the entry point *)

Lemma run_sequential_test_trace (w : World) (s : TaskState) :
  exists tr,
    log (snd (run_sequential_test w s)) = tr ++ log s /\
    fst (run_sequential_test w s) = Return tt /\
    forallb audio_effect tr = true /\
    (count is_http tr <= 63)%nat /\
    0 <= slept tr <= max_wait /\
    match fst (generate_tts_with_gradient w
                 (snd (banner "MOLT STUDIOS - TTS Only Test" s))) with
    | Return _ =>
        exists rest,
          tr = Print "   Audio file: {}" [AStr audio_path_const]
                 :: Print "TTS test complete in {:.1f}s" [ATime (audio_elapsed w)]
                 :: rest /\
          In (WriteFile audio_path_const) rest
    | Raise e =>
        exists rest,
          tr = Print "Traceback (most recent call last): {}" [AExn e]
                 :: Print "TTS test failed: {}" [AExn e]
                 :: rest
    end.
Proof.
  unfold run_sequential_test, print_exc, banner. mred.
  match goal with
  | |- context [generate_tts_with_gradient w ?sb] =>
      destruct (audio_task_trace w sb) as (tr & Hl & He & Hh & _ & Hs & _ & Hret);
      destruct (generate_tts_with_gradient w sb) as [[a|e] s'] eqn:Hg
  end; cbn [fst snd log] in *.
  - destruct (Hret a eq_refl) as (-> & Hin & _). cbn [fst snd].
    eexists (_ :: _ :: tr ++ [_; _; _]).
    split; [cbn [app]; rewrite Hl, <- app_assoc; reflexivity|].
    split; [reflexivity|].
    split; [cbn [forallb andb audio_effect]; apply forallb_audio_app;
            [exact He | reflexivity]|].
    split; [unfold count in *; cbn [filter is_http]; rewrite filter_app, length_app;
            simpl; lia|].
    split; [cbn [slept]; rewrite slept_app; simpl; lia|].
    eexists. split; [reflexivity|]. apply in_or_app. left. exact Hin.
  - eexists (_ :: _ :: tr ++ [_; _; _]).
    split; [cbn [app]; rewrite Hl, <- app_assoc; reflexivity|].
    split; [reflexivity|].
    split; [cbn [forallb andb audio_effect]; apply forallb_audio_app;
            [exact He | reflexivity]|].
    split; [unfold count in *; cbn [filter is_http]; rewrite filter_app, length_app;
            simpl; lia|].
    split; [cbn [slept]; rewrite slept_app; simpl; lia|].
    eexists. reflexivity.
Qed.

Lemma main_run_returns (w : World) : exists exit, fst (main_run w) = Return exit.
Proof.
  rewrite main_run_after_join. unfold after_join, banner.
  destruct (if_path (video_path (joined w))); mred; [|eexists; reflexivity].
  destruct (if_path (audio_path (joined w))); mred; [|eexists; reflexivity].
  match goal with
  | |- context [combine_video_audio w ?a ?b ?c ?s0] =>
      destruct (combine_video_audio w a b c s0) as [[r|e] sm]
  end; eexists; reflexivity.
Qed.

(** The TTS-only test never raises and reports what the audio task did:
    after a return, the time and the audio path as its last two lines (and
    the audio file has been written); after an exception, the failure line
    and the traceback of that exception.  It does nothing but what the audio
    task does and printing: no task is submitted, Modal is not called and no
    command is run; at most 63 requests are sent and at most [max_wait]
    seconds slept. *)
Theorem tts_only_test_reports (w : World) (s : TaskState) :
  exists tr,
    log (snd (run_sequential_test w s)) = tr ++ log s /\
    fst (run_sequential_test w s) = Return tt /\
    forallb audio_effect tr = true /\
    (count is_http tr <= 63)%nat /\
    0 <= slept tr <= max_wait /\
    match fst (generate_tts_with_gradient w
                 (snd (banner "MOLT STUDIOS - TTS Only Test" s))) with
    | Return _ =>
        exists rest,
          tr = Print "   Audio file: {}" [AStr audio_path_const]
                 :: Print "TTS test complete in {:.1f}s" [ATime (audio_elapsed w)]
                 :: rest /\
          In (WriteFile audio_path_const) rest
    | Raise e =>
        exists rest,
          tr = Print "Traceback (most recent call last): {}" [AExn e]
                 :: Print "TTS test failed: {}" [AExn e]
                 :: rest
    end.
Proof.
  destruct (run_sequential_test_trace w s) as (tr & Hl & Hr & He & Hh & Hs & Hrep).
  exists tr.
  split; [exact Hl|]. split; [exact Hr|]. split; [exact He|].
  split; [exact Hh|]. split; [exact Hs|].
  destruct (fst (generate_tts_with_gradient w
                   (snd (banner "MOLT STUDIOS - TTS Only Test" s)))) as [a|e].
  - destruct Hrep as (rest & Htr & Hin). exists rest. split; assumption.
  - destruct Hrep as (rest & Htr). exists rest. exact Htr.
Qed.

(** The entry point never raises.  It runs the TTS-only test exactly when
    the first argument after the program name is [--tts-only], whatever
    follows it; then no task is submitted, Modal is not called and no command
    is run.  With any other argument list, also one that has the flag in a
    later position, it runs the parallel generation, which submits both
    tasks. *)
Theorem entry_point_modes (w : World) (argv : list string) :
  fst (main w argv init) = Return tt /\
  (nth_error argv 1 = Some "--tts-only" ->
   main w argv = run_sequential_test w /\
   forallb audio_effect (log (snd (main w argv init))) = true) /\
  (nth_error argv 1 <> Some "--tts-only" ->
   log (snd (main w argv init)) = log (snd (main_run w)) /\
   In (Submit video_future) (log (snd (main w argv init))) /\
   In (Submit audio_future) (log (snd (main w argv init)))).
Proof.
  assert (Hpar : fst ((run_parallel_generation w ;;; ret tt) init) = Return tt /\
                 log (snd ((run_parallel_generation w ;;; ret tt) init)) =
                 log (snd (main_run w))).
  { destruct (main_run_returns w) as [x Hx]. unfold main_run in *. mred.
    destruct (run_parallel_generation w init) as [[y|e] s']; cbn [fst snd] in *;
      [split; reflexivity | discriminate Hx]. }
  assert (Hsub : In (Submit video_future) (log (snd (main_run w))) /\
                 In (Submit audio_future) (log (snd (main_run w)))).
  { rewrite main_run_after_join. unfold after_join, banner.
    assert (Hb : forall f, In (Submit f) (log before_join) ->
                           In (Submit f) (log (at_join w))).
    { intros f Hf. unfold at_join. cbn [log]. apply in_or_app. right. exact Hf. }
    assert (Hv : In (Submit video_future) (log (at_join w)))
      by (apply Hb; cbn; tauto).
    assert (Ha : In (Submit audio_future) (log (at_join w)))
      by (apply Hb; cbn; tauto).
    destruct (if_path (video_path (joined w))); mred; [|split; right; assumption].
    destruct (if_path (audio_path (joined w))); mred;
      [|split; right; right; assumption].
    match goal with
    | |- context [combine_video_audio w ?a ?b ?c ?s0] =>
        destruct (combine_log w a b c s0) as (tr & Hl & _);
        destruct (combine_video_audio w a b c s0) as [[r|e] sm]
    end; cbn [fst snd log] in *; subst sm; cbn [log].
    - split; do 9 right; apply in_or_app; right; do 3 right; assumption.
    - split; right; apply in_or_app; right; do 3 right; assumption. }
  destruct (run_sequential_test_trace w init) as (tr & Hl & Hr & He & _).
  cbn [log init] in Hl. rewrite app_nil_r in Hl.
  unfold main.
  destruct argv as [|a0 [|a1 rest]]; cbn [nth_error].
  - split; [apply Hpar|]. split; [discriminate|]. intros _.
    destruct Hpar as [_ ->]. split; [reflexivity|exact Hsub].
  - split; [apply Hpar|]. split; [discriminate|]. intros _.
    destruct Hpar as [_ ->]. split; [reflexivity|exact Hsub].
  - destruct (String.eqb_spec a1 "--tts-only") as [->|Hne].
    + split; [exact Hr|]. split.
      * intros _. split; [reflexivity|]. rewrite Hl. exact He.
      * intros H. exfalso. apply H. reflexivity.
    + split; [apply Hpar|]. split.
      * intros H. inversion H. contradiction.
      * intros _. destruct Hpar as [_ ->]. split; [reflexivity|exact Hsub].
Qed.

(** * The Modal services *)

(** Each of the three endpoints asks for a prompt: without a truthy
    [prompt] the request is answered with the error dict (an ordinary return
    value) and [generate] does not run; with one, [generate] runs exactly once
    with that prompt, its arguments always bind, and what it returns or
    raises is what the endpoint returns or raises. *)
Theorem endpoints_require_prompt :
  requires_prompt video_gen.generate_video /\
  requires_prompt video_gen_ltx.generate_video /\
  requires_prompt video_gen_v2.generate_video.
Proof.
  repeat split; intros run request.
  all: unfold video_gen.generate_video, video_gen_ltx.generate_video,
         video_gen_v2.generate_video.
  all: destruct (py_truthy (py_get "prompt" request)); cbn [negb]; [|reflexivity].
  all: eexists; split; [reflexivity | reflexivity].
Qed.

(** Through the endpoints of [video_gen.py] and [video_gen_ltx.py] every
    parameter of [generate] is passed explicitly, so the defaults declared by
    [generate] never apply: a parameter is the value of the request when the
    key is present (also when that value is null), and the default of the
    endpoint otherwise.  For the negative prompt of [video_gen_ltx.py] the
    two defaults differ. *)
Theorem endpoint_parameters (run : Dict -> result Dict) (request : Dict) :
  py_truthy (py_get "prompt" request) = true ->
  snd (video_gen.generate_video run request) =
    [from_request request
       [("prompt", PNone);
        ("negative_prompt", PStr "low quality, blurry, distorted");
        ("num_frames", PInt 84); ("fps", PInt 24);
        ("width", PInt 848); ("height", PInt 480);
        ("num_inference_steps", PInt 50);
        ("guidance_scale", PFloat 9 2);
        ("seed", PNone)]] /\
  snd (video_gen_ltx.generate_video run request) =
    [from_request request
       [("prompt", PNone);
        ("negative_prompt", PStr "worst quality, blurry");
        ("num_frames", PInt 121); ("fps", PInt 24);
        ("width", PInt 704); ("height", PInt 480);
        ("num_inference_steps", PInt 40);
        ("guidance_scale", PFloat 3 1);
        ("seed", PNone)]] /\
  In ("negative_prompt", Some (PStr "worst quality, inconsistent motion, blurry"))
     video_gen_ltx.generate_signature.
Proof.
  intros Hp.
  unfold video_gen.generate_video, video_gen_ltx.generate_video, from_request.
  rewrite Hp. cbn [negb map fst snd].
  repeat split; cbn; tauto.
Qed.

Lemma endpoint_parameters_witness :
  snd (video_gen.generate_video (fun p => Return p)
         [("prompt", PStr "a lobster"); ("num_frames", PNone)]) =
    [from_request [("prompt", PStr "a lobster"); ("num_frames", PNone)]
       [("prompt", PNone);
        ("negative_prompt", PStr "low quality, blurry, distorted");
        ("num_frames", PInt 84); ("fps", PInt 24);
        ("width", PInt 848); ("height", PInt 480);
        ("num_inference_steps", PInt 50);
        ("guidance_scale", PFloat 9 2);
        ("seed", PNone)]] /\
  snd (video_gen_ltx.generate_video (fun p => Return p)
         [("prompt", PStr "a lobster"); ("num_frames", PNone)]) =
    [from_request [("prompt", PStr "a lobster"); ("num_frames", PNone)]
       [("prompt", PNone);
        ("negative_prompt", PStr "worst quality, blurry");
        ("num_frames", PInt 121); ("fps", PInt 24);
        ("width", PInt 704); ("height", PInt 480);
        ("num_inference_steps", PInt 40);
        ("guidance_scale", PFloat 3 1);
        ("seed", PNone)]] /\
  In ("negative_prompt", Some (PStr "worst quality, inconsistent motion, blurry"))
     video_gen_ltx.generate_signature.
Proof.
  apply (@endpoint_parameters (fun p => Return p)
           [("prompt", PStr "a lobster"); ("num_frames", PNone)]).
  reflexivity.
Defined.

(** The endpoint of [video_gen_v2.py] reads seven keys of the request and
    nothing else: requests that agree on them are answered alike.  The
    number of inference steps and the guidance scale of a request are
    dropped, [generate] runs with its own 30 and 6.0; a request without a
    negative prompt runs with [None], not with the negative prompt that
    [generate] declares as default. *)
Theorem v2_endpoint_ignores_sampling_options
    (run : Dict -> result Dict) (request1 request2 : Dict) :
  agree_on video_gen_v2.keys_read request1 request2 ->
  video_gen_v2.generate_video run request1 = video_gen_v2.generate_video run request2 /\
  (py_truthy (py_get "prompt" request1) = true ->
   exists params,
     snd (video_gen_v2.generate_video run request1) = [params] /\
     py_lookup "num_inference_steps" params = Some (PInt 30) /\
     py_lookup "guidance_scale" params = Some (PFloat 6 1) /\
     py_lookup "negative_prompt" params = Some (py_get "negative_prompt" request1)).
Proof.
  intros H. unfold agree_on, video_gen_v2.keys_read in H.
  assert (Hg : forall k, In k video_gen_v2.keys_read ->
                         py_get k request1 = py_get k request2).
  { intros k Hk. unfold py_get. rewrite (H k Hk). reflexivity. }
  assert (Hd : forall k d, In k video_gen_v2.keys_read ->
                           py_get_default k d request1 = py_get_default k d request2).
  { intros k d Hk. unfold py_get_default. rewrite (H k Hk). reflexivity. }
  unfold video_gen_v2.keys_read in Hg, Hd.
  split.
  - unfold video_gen_v2.generate_video.
    rewrite (Hg "prompt"), (Hg "negative_prompt"), (Hg "seed"),
      (Hd "num_frames"), (Hd "fps"), (Hd "width"), (Hd "height") by (cbn; tauto).
    reflexivity.
  - intros Hp. unfold video_gen_v2.generate_video. rewrite Hp. cbn [negb].
    eexists. split; [reflexivity|]. repeat split.
Qed.

Lemma v2_endpoint_ignores_sampling_options_witness :
  video_gen_v2.generate_video (fun p => Return p)
    [("prompt", PStr "a lobster"); ("num_inference_steps", PInt 10)] =
  video_gen_v2.generate_video (fun p => Return p)
    [("guidance_scale", PFloat 9 1); ("prompt", PStr "a lobster")] /\
  (py_truthy (py_get "prompt"
                [("prompt", PStr "a lobster"); ("num_inference_steps", PInt 10)]) = true ->
   exists params,
     snd (video_gen_v2.generate_video (fun p => Return p)
            [("prompt", PStr "a lobster"); ("num_inference_steps", PInt 10)]) = [params] /\
     py_lookup "num_inference_steps" params = Some (PInt 30) /\
     py_lookup "guidance_scale" params = Some (PFloat 6 1) /\
     py_lookup "negative_prompt" params =
       Some (py_get "negative_prompt"
               [("prompt", PStr "a lobster"); ("num_inference_steps", PInt 10)])).
Proof.
  apply (@v2_endpoint_ignores_sampling_options (fun p => Return p)
           [("prompt", PStr "a lobster"); ("num_inference_steps", PInt 10)]
           [("guidance_scale", PFloat 9 1); ("prompt", PStr "a lobster")]).
  intros k Hk. cbn in Hk.
  repeat (destruct Hk as [<-|Hk]; [reflexivity|]). destruct Hk.
Defined.

(** [generate_video] of [video_gen.py] takes one argument, the dict
    [request]: a call by keywords that does not pass [request] does not bind
    and raises [TypeError].  The call in [generate_video_with_modal], which
    passes [prompt], [num_frames], [width], [height] and
    [num_inference_steps], is such a call. *)
Theorem keyword_call_needs_request (kwargs : Dict) :
  py_lookup "request" kwargs = None ->
  call_with_keywords video_gen.generate_video_signature kwargs = Raise TypeError.
Proof.
  intros H. unfold call_with_keywords, video_gen.generate_video_signature.
  destruct (forallb _ kwargs); [|reflexivity].
  cbn [bind_parameters]. rewrite H. reflexivity.
Qed.

Lemma keyword_call_needs_request_witness :
  call_with_keywords video_gen.generate_video_signature modal_call_kwargs = Raise TypeError.
Proof.
  apply (@keyword_call_needs_request modal_call_kwargs). reflexivity.
Defined.

(** * The arguments of the LTX-2 pipeline *)

Lemma py_lookup_setitem_other key k v d :
  k <> key -> py_lookup key (py_setitem k v d) = py_lookup key d.
Proof.
  intros Hne. induction d as [|[k' x] d IH]; cbn [py_setitem py_lookup].
  - destruct (String.eqb_spec k key); [contradiction | reflexivity].
  - destruct (String.eqb_spec k' k) as [->|Hk]; cbn [py_lookup].
    + destruct (String.eqb_spec k key); [contradiction | reflexivity].
    + destruct (String.eqb_spec k' key); [reflexivity | exact IH].
Qed.

Lemma py_lookup_setitem_same key v d :
  py_lookup key (py_setitem key v d) = Some v.
Proof.
  induction d as [|[k' x] d IH]; cbn [py_setitem py_lookup].
  - rewrite String.eqb_refl. reflexivity.
  - destruct (String.eqb_spec k' key) as [->|Hk]; cbn [py_lookup].
    + rewrite String.eqb_refl. reflexivity.
    + destruct (String.eqb_spec k' key); [contradiction | exact IH].
Qed.

(** What [generate] of [ltx2_gen.py] hands to the pipeline.  The prompt, the
    negative prompt, the steps, the guidance scale and the generator are
    always passed; [num_frames], [height] and [width] are passed exactly when
    the pipeline has a parameter of that name, and then unchanged (there is
    no rounding to a multiple of 32); [fps] is passed only under the name
    [frame_rate]; [audio_text] is never passed.  The generator is seeded with
    the seed given, also when that is 0, and with a random one only when the
    seed is [None]. *)
Theorem ltx2_pipeline_arguments (parameters : list string) (random : Z) (p : Dict) :
  let kwargs := ltx2_gen.pipe_kwargs parameters random p in
  (forall k, In k ["prompt"; "negative_prompt"; "num_inference_steps"; "guidance_scale"] ->
             py_lookup k kwargs = Some (py_get k p)) /\
  (forall k, In k ["num_frames"; "height"; "width"] ->
             py_lookup k kwargs =
             if ltx2_gen.in_parameters k parameters then Some (py_get k p) else None) /\
  py_lookup "frame_rate" kwargs =
    (if ltx2_gen.in_parameters "frame_rate" parameters then Some (py_get "fps" p) else None) /\
  py_lookup "fps" kwargs = None /\
  py_lookup "audio_text" kwargs = None /\
  py_lookup "generator" kwargs = Some (ltx2_gen.seed_used random p) /\
  (ltx2_gen.seed_used random p = PInt random <->
   py_get "seed" p = PNone \/ py_get "seed" p = PInt random).
Proof.
  cbv zeta. unfold ltx2_gen.pipe_kwargs.
  split; [|split; [|split; [|split; [|split; [|split]]]]].
  - intros k Hk. cbn in Hk.
    destruct (ltx2_gen.in_parameters "num_frames" parameters),
             (ltx2_gen.in_parameters "height" parameters),
             (ltx2_gen.in_parameters "width" parameters),
             (ltx2_gen.in_parameters "frame_rate" parameters).
    all: repeat (destruct Hk as [<-|Hk]; [reflexivity|]); destruct Hk.
  - intros k Hk. cbn in Hk.
    destruct (ltx2_gen.in_parameters "num_frames" parameters) eqn:E1,
             (ltx2_gen.in_parameters "height" parameters) eqn:E2,
             (ltx2_gen.in_parameters "width" parameters) eqn:E3,
             (ltx2_gen.in_parameters "frame_rate" parameters) eqn:E4.
    all: repeat (destruct Hk as [<-|Hk]; [rewrite ?E1, ?E2, ?E3; reflexivity|]);
      destruct Hk.
  - destruct (ltx2_gen.in_parameters "num_frames" parameters),
             (ltx2_gen.in_parameters "height" parameters),
             (ltx2_gen.in_parameters "width" parameters),
             (ltx2_gen.in_parameters "frame_rate" parameters); reflexivity.
  - destruct (ltx2_gen.in_parameters "num_frames" parameters),
             (ltx2_gen.in_parameters "height" parameters),
             (ltx2_gen.in_parameters "width" parameters),
             (ltx2_gen.in_parameters "frame_rate" parameters); reflexivity.
  - destruct (ltx2_gen.in_parameters "num_frames" parameters),
             (ltx2_gen.in_parameters "height" parameters),
             (ltx2_gen.in_parameters "width" parameters),
             (ltx2_gen.in_parameters "frame_rate" parameters); reflexivity.
  - destruct (ltx2_gen.in_parameters "num_frames" parameters),
             (ltx2_gen.in_parameters "height" parameters),
             (ltx2_gen.in_parameters "width" parameters),
             (ltx2_gen.in_parameters "frame_rate" parameters); reflexivity.
  - unfold ltx2_gen.seed_used, PNone, PInt.
    destruct (py_get "seed" p) as [[| | | | |]|]; split; intros H;
      try discriminate H; try (left; reflexivity); try (right; exact H);
      try reflexivity.
    all: destruct H as [H|H]; try discriminate H; try exact H.
Qed.

Lemma forallb_accepts sig (d : Dict) :
  forallb (fun kv => accepts sig (fst kv)) d = true <->
  (forall k, py_lookup k d <> None -> accepts sig k = true).
Proof.
  induction d as [|[k' v] d IH]; cbn [forallb py_lookup fst].
  - split; [intros _ k H; contradiction H; reflexivity | reflexivity].
  - rewrite andb_true_iff, IH. split.
    + intros [Hh Ht] k Hk.
      destruct (String.eqb_spec k' k) as [E|Hne]; [subst k'; exact Hh | exact (Ht k Hk)].
    + intros H. split.
      * apply (H k'). rewrite String.eqb_refl. discriminate.
      * intros k Hk. apply (H k).
        destruct (String.eqb_spec k' k); [discriminate | exact Hk].
Qed.

(** The audio text given to [generate] of [ltx2_gen.py] has no effect on the
    call of the pipeline: two calls whose keyword arguments differ at most
    in [audio_text] either both fail to bind or hand the pipeline the same
    arguments. *)
Theorem ltx2_audio_text_is_ignored
    (parameters : list string) (random : Z) (kwargs1 kwargs2 : Dict) :
  (forall k, k <> "audio_text" -> py_lookup k kwargs1 = py_lookup k kwargs2) ->
  ltx2_gen.generate_pipe_kwargs parameters random kwargs1 =
  ltx2_gen.generate_pipe_kwargs parameters random kwargs2.
Proof.
  intros H. unfold ltx2_gen.generate_pipe_kwargs, call_with_keywords.
  assert (Hacc : forallb (fun kv => accepts ltx2_gen.generate_signature (fst kv)) kwargs1 =
                 forallb (fun kv => accepts ltx2_gen.generate_signature (fst kv)) kwargs2).
  { apply eq_true_iff_eq. rewrite !forallb_accepts.
    split; intros Ha k Hk.
    - destruct (String.eqb_spec k "audio_text") as [->|Hne]; [reflexivity|].
      apply Ha. rewrite (H k Hne). exact Hk.
    - destruct (String.eqb_spec k "audio_text") as [->|Hne]; [reflexivity|].
      apply Ha. rewrite <- (H k Hne). exact Hk. }
  rewrite Hacc.
  destruct (forallb _ kwargs2); [|reflexivity].
  unfold ltx2_gen.generate_signature. cbn [bind_parameters].
  rewrite (H "prompt"), (H "negative_prompt"), (H "num_frames"), (H "fps"),
    (H "width"), (H "height"), (H "num_inference_steps"), (H "guidance_scale"),
    (H "seed") by discriminate.
  destruct (py_lookup "prompt" kwargs2); [|reflexivity].
  destruct (py_lookup "negative_prompt" kwargs2), (py_lookup "num_frames" kwargs2),
    (py_lookup "fps" kwargs2), (py_lookup "width" kwargs2), (py_lookup "height" kwargs2),
    (py_lookup "num_inference_steps" kwargs2), (py_lookup "guidance_scale" kwargs2),
    (py_lookup "seed" kwargs2).
  all: destruct (py_lookup "audio_text" kwargs1), (py_lookup "audio_text" kwargs2);
    reflexivity.
Qed.

Lemma ltx2_audio_text_is_ignored_witness :
  ltx2_gen.generate_pipe_kwargs ["prompt"; "height"; "width"; "num_frames"] 7
    test_ltx2_release.run_test_kwargs =
  ltx2_gen.generate_pipe_kwargs ["prompt"; "height"; "width"; "num_frames"] 7
    [("prompt", PStr VIDEO_PROMPT); ("num_frames", PInt 121);
     ("width", PInt 1280); ("height", PInt 720)].
Proof.
  apply (@ltx2_audio_text_is_ignored ["prompt"; "height"; "width"; "num_frames"] 7
           test_ltx2_release.run_test_kwargs
           [("prompt", PStr VIDEO_PROMPT); ("num_frames", PInt 121);
            ("width", PInt 1280); ("height", PInt 720)]).
  intros k Hk. unfold test_ltx2_release.run_test_kwargs. cbn [py_lookup].
  destruct (String.eqb_spec "audio_text" k) as [E|_]; [congruence|].
  reflexivity.
Defined.

(** * Result fetch and download after COMPLETE *)







(** The reading is met where the result fetch itself is answered 500: one
    fetch, and the task raises. *)
Lemma single_checked_fetch_result_500 : single_checked_fetch w_result_500.
Proof.
  assert (E : audio_run w_result_500 =
              (Raise (Exception_ "Failed to get result: {}" [JNum 500]),
               {| log := [Http GET (U_result (JStr "r1")) 30;
                          Print "   Status: {} ({}s elapsed)"
                            [AJson (JStr "COMPLETE"); AInt 0];
                          Http GET (U_status (JStr "r1")) 10;
                          Print "   Job started: {}" [AJson (JStr "r1")];
                          Http POST U_invoke 30;
                          Print "   Sending TTS request to {}/v1/async-invoke..." [];
                          Print "Starting TTS generation with DigitalOcean Gradient..." []];
                  nreq := 3 |})).
  { unfold audio_run.
    rewrite (@audio_task_enters_loop w_result_500 init
               (resp true 200 (Some (JObj [("request_id", JStr "r1")])))
               [("request_id", JStr "r1")] eq_refl eq_refl eq_refl eq_refl).
    change (get_or_null "request_id" [("request_id", JStr "r1")]) with (JStr "r1").
    rewrite (@poll_loop_complete w_result_500 (JStr "r1") 0 _
               (resp true 200 (Some (JObj [("status", JStr "COMPLETE")])))
               [("status", JStr "COMPLETE")])
      by reflexivity.
    reflexivity. }
  unfold single_checked_fetch, requests_of, history. rewrite E.
  split; [unfold count; simpl; lia|].
  intros n m u t _ _ _. reflexivity.
Qed.
